(** * pycloudstack.vmm: the libvirt backend of the VM manager

    A shallow embedding of [utils/pycloudstack/pycloudstack/vmm.py]
    (class [VMMLibvirt]) and the properties of its lifecycle operations,
    configuration-document construction, IP discovery and guest-agent
    relay.

    Python objects the module talks to (libvirt, the file system, the
    [arp] command, the guest agent) are reached through one interface,
    [Host]; the methods run in a state-and-exception monad whose state
    holds the host, the trace of side effects and the [_ip] attribute. *)

From Stdlib Require Import String Ascii List Bool ZArith Lia DecimalString.
Import ListNotations.
Local Open Scope string_scope.
Local Open Scope Z_scope.

(** ** Python values and control flow *)

Module Py.

(** The exception classes that occur in the module. *)
Inductive exn : Type :=
| AssertionError
| AttributeError
| IndexError
| KeyError
| TypeError
| JSONDecodeError
| OSError
| libvirtError.

Definition exn_eqb (a b : exn) : bool :=
  match a, b with
  | AssertionError, AssertionError
  | AttributeError, AttributeError
  | IndexError, IndexError
  | KeyError, KeyError
  | TypeError, TypeError
  | JSONDecodeError, JSONDecodeError
  | OSError, OSError
  | libvirtError, libvirtError => true
  | _, _ => false
  end.

Inductive result (A : Type) : Type :=
| Ok (a : A)
| Raise (e : exn).
Arguments Ok {A} a.
Arguments Raise {A} e.

Definition is_None {A : Type} (o : option A) : bool :=
  match o with None => true | Some _ => false end.

(** [needle in hay] on strings: substring containment. *)
Fixpoint str_in (needle hay : string) : bool :=
  String.prefix needle hay
  || match hay with
     | EmptyString => false
     | String _ hay' => str_in needle hay'
     end.

(** [posixpath.join] with two arguments. *)
Definition os_path_join (a p : string) : string :=
  if String.prefix "/" p then p
  else if String.eqb a "" then p
  else if String.eqb (String.substring (String.length a - 1) 1 a) "/"
       then a ++ p
       else a ++ "/" ++ p.

(** The double-quote character, for the JSON command strings. *)
Definition dq : string := String (ascii_of_nat 34) EmptyString.

End Py.

(** ** The three regular expressions of [get_ip]

    Each pattern of the module is a concatenation of character classes
    with a repetition range, and has one capture group. The matcher is
    the backtracking one of Python's [re]: leftmost start, each
    repetition greedy, shorter repetitions tried when the rest fails.
    Text is ASCII: [\w] is [[a-zA-Z0-9_]]. *)

Module Re.

Record atom : Type := Atom {
  cls : ascii -> bool;
  lo : nat;
  hi : option nat            (* [None]: unbounded *)
}.

Definition between (a b c : ascii) : bool :=
  (nat_of_ascii a <=? nat_of_ascii c)%nat
  && (nat_of_ascii c <=? nat_of_ascii b)%nat.

Definition digit (c : ascii) : bool := between "0" "9" c.
Definition alpha (c : ascii) : bool := between "a" "z" c || between "A" "Z" c.
Definition word (c : ascii) : bool := alpha c || digit c || Ascii.eqb c "_".

Definition lit (c : ascii) : atom := Atom (Ascii.eqb c) 1 (Some 1%nat).
Definition lits (s : string) : list atom := map lit (list_ascii_of_string s).
Definition plus (p : ascii -> bool) : atom := Atom p 1 None.
Definition rep (p : ascii -> bool) (m n : nat) : atom := Atom p m (Some n).

(** Length of the longest prefix of [s] in class [p], at most [limit]. *)
Fixpoint span (p : ascii -> bool) (limit : option nat) (s : list ascii) : nat :=
  match limit, s with
  | Some O, _ => O
  | _, [] => O
  | _, c :: s' =>
      if p c then S (span p (option_map Nat.pred limit) s') else O
  end.

(** Match the atoms at the start of [s]; the text each atom took. *)
Fixpoint match_here (r : list atom) (s : list ascii) : option (list (list ascii)) :=
  match r with
  | [] => Some []
  | a :: r' =>
      (fix try (n : nat) : option (list (list ascii)) :=
         let attempt :=
           if (lo a <=? n)%nat
           then option_map (cons (firstn n s)) (match_here r' (skipn n s))
           else None in
         match attempt, n with
         | Some g, _ => Some g
         | None, O => None
         | None, S n' => try n'
         end) (span (cls a) (hi a) s)
  end.

(** [re.search]: the match at the leftmost position that has one. *)
Fixpoint search_list (r : list atom) (s : list ascii) : option (list (list ascii)) :=
  match match_here r s with
  | Some g => Some g
  | None =>
      match s with
      | [] => None
      | _ :: s' => search_list r s'
      end
  end.

(** A pattern: its atoms and the range of atoms inside its one group. *)
Record pattern : Type := Pattern {
  atoms : list atom;
  group_from : nat;
  group_len : nat
}.

(** A match object; every pattern here has exactly one group. *)
Record Match : Type := MkMatch { group1 : string }.

Definition search (p : pattern) (s : string) : option Match :=
  option_map
    (fun g => MkMatch (string_of_list_ascii
                 (concat (firstn (group_len p) (skipn (group_from p) g)))))
    (search_list (atoms p) (list_ascii_of_string s)).

(** [Match.groups()]: the tuple of the groups, here a 1-tuple. The
    argument of [groups(0)] is the default for a group that did not
    take part in the match, which does not happen here. *)
Definition groups (m : Match) : list string := [group1 m].

(** [r"<mac address='([a-zA-Z0-9:]+)'"] *)
Definition mac_xml : pattern :=
  Pattern (lits "<mac address='"
             ++ [plus (fun c => alpha c || digit c || Ascii.eqb c ":")]
             ++ lits "'")
          14 1.

(** [r'([0-9]{1,3}\.[0-9]{1,3}\.[0-9]{1,3}\.[0-9]{1,3})'] *)
Definition ipv4 : pattern :=
  Pattern [rep digit 1 3; lit "."; rep digit 1 3; lit ".";
           rep digit 1 3; lit "."; rep digit 1 3]
          0 7.

(** [r'(\w+:\w+:\w+:\w+:\w+:\w+)'] *)
Definition mac : pattern :=
  Pattern [plus word; lit ":"; plus word; lit ":"; plus word; lit ":";
           plus word; lit ":"; plus word; lit ":"; plus word]
          0 11.

End Re.

(** ** Collaborators: guest specification and configuration document *)

(** [vmparam.VM_TYPE_*]: the four guest flavors, the keys of [_TEMPLATE]. *)
Inductive vmtype : Type :=
| VM_TYPE_LEGACY
| VM_TYPE_EFI
| VM_TYPE_TD
| VM_TYPE_SGX.

(** The constants of [vmparam] that the module reads; their values are
    not part of this module. *)
Record VmParam : Type := {
  BOOT_TYPE_GRUB : string;
  BIOS_BINARY_LEGACY : string;
  BIOS_OVMF_CODE : string;
  BIOS_OVMF_VARS : string
}.

(** [vminst.cmdline] is an object the module only converts with [str()]. *)
Record KernelCmdline : Type := { __str__ : string }.
Definition str (c : KernelCmdline) : string := __str__ c.

Record CpuTopology : Type := {
  vcpus : Z;
  sockets : Z;
  cores : Z;
  threads : Z
}.

(** [vminst], the guest the backend manages ([VMGuest]); the attributes
    read by [vmm.py]. [memsize] is taken integral. *)
Record VMGuest : Type := {
  vm_vmtype : vmtype;
  vm_name : string;
  vm_vmid : string;
  vm_memsize : Z;
  vm_image_filepath : string;
  vm_cpu_topology : CpuTopology;
  vm_hugepages : bool;
  vm_hugepage_size : Z;
  vm_vsock : bool;
  vm_vsock_cid : Z;
  vm_boot : string;
  vm_kernel : option string;
  vm_cmdline : KernelCmdline;
  vm_ssh_forward_port : Z
}.

Module VirtXml.

(** Modelled from the spec: [virtxml.VirtXml], the configuration-document
    collaborator, is not part of this module; it "exposes settable fields
    (memory, identity, image path, topology counts, loader/NVRAM paths,
    kernel/cmdline, CPU-feature string, huge-page/vsock toggles,
    port-forward rule)" and "[filepath] and [name] as readable identity".
    A field that Python leaves at [None] is [None] here. *)
Record t : Type := mk {
  name : string;
  filepath : string;
  memory : Z;
  uuid : string;
  imagefile : string;
  vcpu : Z;
  xsockets : Z;
  xcores : Z;
  xthreads : Z;
  hugepage_params : option Z;
  vsock : option Z;
  loader : option string;
  nvram : option string;
  cpu_params : option string;
  kernel : option string;
  cmdline : option string;
  ssh_forward_port : option Z
}.

Definition set_memory v x := mk (name x) (filepath x) v (uuid x) (imagefile x) (vcpu x) (xsockets x) (xcores x) (xthreads x) (hugepage_params x) (vsock x) (loader x) (nvram x) (cpu_params x) (kernel x) (cmdline x) (ssh_forward_port x).
Definition set_uuid v x := mk (name x) (filepath x) (memory x) v (imagefile x) (vcpu x) (xsockets x) (xcores x) (xthreads x) (hugepage_params x) (vsock x) (loader x) (nvram x) (cpu_params x) (kernel x) (cmdline x) (ssh_forward_port x).
Definition set_imagefile v x := mk (name x) (filepath x) (memory x) (uuid x) v (vcpu x) (xsockets x) (xcores x) (xthreads x) (hugepage_params x) (vsock x) (loader x) (nvram x) (cpu_params x) (kernel x) (cmdline x) (ssh_forward_port x).
Definition set_vcpu v x := mk (name x) (filepath x) (memory x) (uuid x) (imagefile x) v (xsockets x) (xcores x) (xthreads x) (hugepage_params x) (vsock x) (loader x) (nvram x) (cpu_params x) (kernel x) (cmdline x) (ssh_forward_port x).
Definition set_sockets v x := mk (name x) (filepath x) (memory x) (uuid x) (imagefile x) (vcpu x) v (xcores x) (xthreads x) (hugepage_params x) (vsock x) (loader x) (nvram x) (cpu_params x) (kernel x) (cmdline x) (ssh_forward_port x).
Definition set_cores v x := mk (name x) (filepath x) (memory x) (uuid x) (imagefile x) (vcpu x) (xsockets x) v (xthreads x) (hugepage_params x) (vsock x) (loader x) (nvram x) (cpu_params x) (kernel x) (cmdline x) (ssh_forward_port x).
Definition set_threads v x := mk (name x) (filepath x) (memory x) (uuid x) (imagefile x) (vcpu x) (xsockets x) (xcores x) v (hugepage_params x) (vsock x) (loader x) (nvram x) (cpu_params x) (kernel x) (cmdline x) (ssh_forward_port x).
Definition set_hugepage_params v x := mk (name x) (filepath x) (memory x) (uuid x) (imagefile x) (vcpu x) (xsockets x) (xcores x) (xthreads x) (Some v) (vsock x) (loader x) (nvram x) (cpu_params x) (kernel x) (cmdline x) (ssh_forward_port x).
Definition set_vsock v x := mk (name x) (filepath x) (memory x) (uuid x) (imagefile x) (vcpu x) (xsockets x) (xcores x) (xthreads x) (hugepage_params x) (Some v) (loader x) (nvram x) (cpu_params x) (kernel x) (cmdline x) (ssh_forward_port x).
Definition set_loader v x := mk (name x) (filepath x) (memory x) (uuid x) (imagefile x) (vcpu x) (xsockets x) (xcores x) (xthreads x) (hugepage_params x) (vsock x) (Some v) (nvram x) (cpu_params x) (kernel x) (cmdline x) (ssh_forward_port x).
Definition set_nvram v x := mk (name x) (filepath x) (memory x) (uuid x) (imagefile x) (vcpu x) (xsockets x) (xcores x) (xthreads x) (hugepage_params x) (vsock x) (loader x) (Some v) (cpu_params x) (kernel x) (cmdline x) (ssh_forward_port x).
Definition set_cpu_params v x := mk (name x) (filepath x) (memory x) (uuid x) (imagefile x) (vcpu x) (xsockets x) (xcores x) (xthreads x) (hugepage_params x) (vsock x) (loader x) (nvram x) (Some v) (kernel x) (cmdline x) (ssh_forward_port x).
Definition set_kernel v x := mk (name x) (filepath x) (memory x) (uuid x) (imagefile x) (vcpu x) (xsockets x) (xcores x) (xthreads x) (hugepage_params x) (vsock x) (loader x) (nvram x) (cpu_params x) v (cmdline x) (ssh_forward_port x).
Definition set_cmdline v x := mk (name x) (filepath x) (memory x) (uuid x) (imagefile x) (vcpu x) (xsockets x) (xcores x) (xthreads x) (hugepage_params x) (vsock x) (loader x) (nvram x) (cpu_params x) (kernel x) v (ssh_forward_port x).
Definition enable_ssh_forward_port v x := mk (name x) (filepath x) (memory x) (uuid x) (imagefile x) (vcpu x) (xsockets x) (xcores x) (xthreads x) (hugepage_params x) (vsock x) (loader x) (nvram x) (cpu_params x) (kernel x) (cmdline x) (Some v).

End VirtXml.

(** ** The host: everything outside the Python process *)

(** The [libvirt.virDomain] methods the module calls for their effect. *)
Inductive DomCall : Type :=
| dom_create
| dom_destroy
| dom_undefineFlags (flags : Z)
| dom_suspend
| dom_resume
| dom_reboot
| dom_shutdown.

(** [libvirt] constants. *)
Definition VIR_DOMAIN_RUNNING : Z := 1.
Definition VIR_DOMAIN_PAUSED : Z := 3.
Definition VIR_DOMAIN_SHUTDOWN : Z := 4.
Definition VIR_DOMAIN_SHUTOFF : Z := 5.
Definition VIR_DOMAIN_UNDEFINE_NVRAM : Z := 4.

(** A host with state [Env]. A libvirt call that answers [None] raised
    [libvirt.libvirtError]; [os_remove] that answers [None] raised
    [OSError]. A domain is named by its UUID string. *)
Record Host (Env : Type) : Type := {
  libvirt_open : Env -> bool;
  lookupByUUIDString : Env -> string -> bool;
  dom_state : Env -> string -> Z;
  dom_XMLDesc : Env -> string -> string;
  dom_call : DomCall -> string -> Env -> option Env;
  qemuAgentCommand : string -> string -> Z -> Z -> Env -> option string * Env;
  os_path_exists : Env -> string -> bool;
  os_remove : string -> Env -> option Env;
  os_system : string -> Env -> Env;
  arp_a : Env -> list string * Env;
  time_sleep : Z -> Env -> Env;
  get_cpu_base_freq : Env -> Z;
  VirtXml_clone : string -> string -> VirtXml.t;
  module_dir : string    (* [os.path.dirname(os.path.realpath(__file__))] *)
}.
Arguments libvirt_open {Env}.
Arguments lookupByUUIDString {Env}.
Arguments dom_state {Env}.
Arguments dom_XMLDesc {Env}.
Arguments dom_call {Env}.
Arguments qemuAgentCommand {Env}.
Arguments os_path_exists {Env}.
Arguments os_remove {Env}.
Arguments os_system {Env}.
Arguments arp_a {Env}.
Arguments time_sleep {Env}.
Arguments get_cpu_base_freq {Env}.
Arguments VirtXml_clone {Env}.
Arguments module_dir {Env}.

(** What the module does to the host, newest first. [LOG.debug] lines
    are not recorded. *)
Inductive event : Type :=
| EvSystem (cmd : string)
| EvDom (uuid : string) (c : DomCall)
| EvAgent (cmd : string)
| EvRemove (path : string)
| EvArp
| EvSleep (secs : Z)
| EvWarning (msg : string)
| EvError (msg : string).

(** ** The monad of the methods *)

Section Monad.
Context {Env : Type}.

Record State : Type := mkState {
  env : Env;
  trace : list event;
  _ip : option string            (* [self._ip] *)
}.

Definition M (A : Type) : Type := State -> Py.result A * State.

Definition ret {A} (a : A) : M A := fun s => (Py.Ok a, s).
Definition raise {A} (e : Py.exn) : M A := fun s => (Py.Raise e, s).
Definition bind {A B} (c : M A) (k : A -> M B) : M B :=
  fun s =>
    match c s with
    | (Py.Ok a, s') => k a s'
    | (Py.Raise e, s') => (Py.Raise e, s')
    end.

(** [try: c except catches: handler] *)
Definition try_except {A} (c : M A) (catches : Py.exn -> bool) (handler : M A) : M A :=
  fun s =>
    match c s with
    | (Py.Ok a, s') => (Py.Ok a, s')
    | (Py.Raise e, s') => if catches e then handler s' else (Py.Raise e, s')
    end.

Definition assert (b : bool) : M unit :=
  if b then ret tt else raise Py.AssertionError.

Definition emit (e : event) : M unit :=
  fun s => (Py.Ok tt, mkState (env s) (e :: trace s) (_ip s)).
Definition get_env : M Env := fun s => (Py.Ok (env s), s).
Definition put_env (e : Env) : M unit :=
  fun s => (Py.Ok tt, mkState e (trace s) (_ip s)).
Definition get__ip : M (option string) := fun s => (Py.Ok (_ip s), s).
Definition set__ip (v : option string) : M unit :=
  fun s => (Py.Ok tt, mkState (env s) (trace s) v).

(** [t[i]] on a tuple. *)
Definition index {A} (t : list A) (i : nat) : M A :=
  match nth_error t i with
  | Some a => ret a
  | None => raise Py.IndexError
  end.

End Monad.
Arguments State Env : clear implicits.
Arguments M Env A : clear implicits.

Declare Scope py_scope.
Delimit Scope py_scope with py.
Notation "x <- c ;; k" := (bind c (fun x => k))
  (at level 61, c at next level, right associativity) : py_scope.
Notation "c ;; k" := (bind c (fun _ => k))
  (at level 61, right associativity) : py_scope.
Local Open Scope py_scope.

(** ** JSON values, as [json.loads] produces them *)

#[local] Unset Elimination Schemes.
Inductive json : Type :=
| JNull
| JBool (b : bool)
| JInt (n : Z)
| JStr (s : string)
| JList (l : list json)
| JObj (members : list (string * json)).
#[local] Set Elimination Schemes.

(** The two library functions used on agent responses: [json.loads]
    ([None]: [JSONDecodeError]) and the [%s] rendering of a value. *)
Record PyLib : Type := {
  json_loads : string -> option json;
  format_s : json -> string
}.

Fixpoint dict_get (members : list (string * json)) (key : string) : option json :=
  match members with
  | [] => None
  | (k, v) :: rest => if String.eqb k key then Some v else dict_get rest key
  end.

(** ** The backend object *)

(** The libvirt connection returned by [libvirt.open("qemu:///system")]. *)
Inductive virConnect : Type := qemu_system.

Record VMMLibvirt : Type := {
  vminst : VMGuest;
  _virt_conn : option virConnect;
  _xml : VirtXml.t
}.

Definition ARP_INTERVAL : nat := 120.

Definition _TEMPLATE (t : vmtype) : string :=
  match t with
  | VM_TYPE_LEGACY => "legacy-base"
  | VM_TYPE_EFI => "ovmf-base"
  | VM_TYPE_TD => "tdx-base"
  | VM_TYPE_SGX => "sgx-base"
  end.

Definition vmtype_eqb (a b : vmtype) : bool :=
  match a, b with
  | VM_TYPE_LEGACY, VM_TYPE_LEGACY
  | VM_TYPE_EFI, VM_TYPE_EFI
  | VM_TYPE_TD, VM_TYPE_TD
  | VM_TYPE_SGX, VM_TYPE_SGX => true
  | _, _ => false
  end.

(** Modelled from the spec: the values of [vmparam.VM_STATE_*] are not
    part of this module; the spec gives the lifecycle state as "an enum
    {RUNNING, PAUSED, SHUTDOWN_IN_PROGRESS, SHUTDOWN, UNKNOWN}". The
    first four carry the names under which [vmm.py] imports them; the
    module imports no name for the fifth. *)
Inductive vm_state : Type :=
| VM_STATE_RUNNING
| VM_STATE_PAUSE
| VM_STATE_SHUTDOWN_IN_PROGRESS
| VM_STATE_SHUTDOWN
| VM_STATE_UNKNOWN.

Section Backend.
Context {Env : Type} (host : Host Env) (param : VmParam) (lib : PyLib).

#[local] Abbreviation M := (M Env).

(** *** Primitive effects *)

Definition system (cmd : string) : M unit :=
  e <- get_env ;;
  put_env (os_system host cmd e) ;;
  emit (EvSystem cmd).

Definition warning (msg : string) : M unit := emit (EvWarning msg).

(** [dom.<call>()] on the domain [dom]. *)
Definition dom_do (dom : string) (c : DomCall) : M unit :=
  emit (EvDom dom c) ;;
  e <- get_env ;;
  match dom_call host c dom e with
  | Some e' => put_env e'
  | None => raise Py.libvirtError
  end.

(** [state, _ = dom.state()] *)
Definition dom_get_state (dom : string) : M Z :=
  e <- get_env ;;
  ret (dom_state host e dom).

(** *** Construction *)

Definition _prepare_domain_xml (vminst : VMGuest) : M VirtXml.t :=
  let xmlobj := VirtXml_clone host (_TEMPLATE (vm_vmtype vminst)) (vm_name vminst) in
  let xmlobj := VirtXml.set_memory (vm_memsize vminst * 1024 * 1024) xmlobj in
  let xmlobj := VirtXml.set_uuid (vm_vmid vminst) xmlobj in
  let xmlobj := VirtXml.set_imagefile (vm_image_filepath vminst) xmlobj in
  let xmlobj := VirtXml.set_vcpu (vcpus (vm_cpu_topology vminst)) xmlobj in
  let xmlobj := VirtXml.set_sockets (sockets (vm_cpu_topology vminst)) xmlobj in
  let xmlobj := VirtXml.set_cores (cores (vm_cpu_topology vminst)) xmlobj in
  let xmlobj := VirtXml.set_threads (threads (vm_cpu_topology vminst)) xmlobj in
  let copy_dir := module_dir host in
  let copy_name := "OVMF_VARS." ++ VirtXml.uuid xmlobj ++ ".fd" in
  let ovmf_vars := Py.os_path_join copy_dir copy_name in
  system ("cp " ++ BIOS_OVMF_VARS param ++ " " ++ ovmf_vars) ;;
  let xmlobj :=
    if vm_hugepages vminst
    then VirtXml.set_hugepage_params (vm_hugepage_size vminst) xmlobj
    else xmlobj in
  let xmlobj :=
    if vm_vsock vminst
    then VirtXml.set_vsock (vm_vsock_cid vminst) xmlobj
    else xmlobj in
  xmlobj <-
    match vm_vmtype vminst with
    | VM_TYPE_LEGACY =>
        let xmlobj := VirtXml.set_loader (BIOS_BINARY_LEGACY param) xmlobj in
        ret (VirtXml.set_cpu_params "host,-kvm-steal-time,pmu=off" xmlobj)
    | VM_TYPE_EFI =>
        let xmlobj := VirtXml.set_loader (BIOS_OVMF_CODE param) xmlobj in
        let xmlobj := VirtXml.set_nvram ovmf_vars xmlobj in
        ret (VirtXml.set_cpu_params "host,-kvm-steal-time,pmu=off" xmlobj)
    | VM_TYPE_SGX =>
        let xmlobj := VirtXml.set_loader (BIOS_BINARY_LEGACY param) xmlobj in
        ret (VirtXml.set_cpu_params
               ("host,host-phys-bits,+sgx,+sgx-debug,+sgx-exinfo,"
                ++ "+sgx-kss,+sgx-mode64,+sgx-provisionkey,+sgx-tokenkey,+sgx1,+sgx2,+sgxlc")
               xmlobj)
    | VM_TYPE_TD =>
        let xmlobj := VirtXml.set_loader (BIOS_OVMF_CODE param) xmlobj in
        let xmlobj := VirtXml.set_nvram ovmf_vars xmlobj in
        e <- get_env ;;
        if get_cpu_base_freq host e <? 1000000
        then ret (VirtXml.set_cpu_params
                    "host,-kvm-steal-time,pmu=off,tsc-freq=1000000000" xmlobj)
        else ret (VirtXml.set_cpu_params "host,-kvm-steal-time,pmu=off" xmlobj)
    end ;;
  let xmlobj :=
    if String.eqb (vm_boot vminst) (BOOT_TYPE_GRUB param)
    then VirtXml.set_cmdline None (VirtXml.set_kernel None xmlobj)
    else VirtXml.set_cmdline (Some (str (vm_cmdline vminst)))
           (VirtXml.set_kernel (vm_kernel vminst) xmlobj) in
  ret (VirtXml.enable_ssh_forward_port (vm_ssh_forward_port vminst) xmlobj).

Definition _connect_virt : M (option virConnect) :=
  e <- get_env ;;
  if libvirt_open host e
  then ret (Some qemu_system)
  else
    emit (EvError "Fail to connect libvirt, please make sure current user in libvirt group") ;;
    assert false ;;
    ret None.

(** [VMMLibvirt.__init__] *)
Definition __init__ (vminst : VMGuest) : M VMMLibvirt :=
  conn <- _connect_virt ;;
  assert (negb (Py.is_None conn)) ;;
  xml <- _prepare_domain_xml vminst ;;
  set__ip None ;;
  ret {| vminst := vminst; _virt_conn := conn; _xml := xml |}.

Definition _get_domain (self : VMMLibvirt) : M string :=
  assert (negb (Py.is_None (_virt_conn self))) ;;
  e <- get_env ;;
  if lookupByUUIDString host e (vm_vmid (vminst self))
  then ret (vm_vmid (vminst self))
  else raise Py.libvirtError.

(** *** Lifecycle *)

(** [destroy], first block ("Destroy the domain"). *)
Definition destroy_domain (self : VMMLibvirt) : M unit :=
  try_except
    (dom <- _get_domain self ;;
     dom_do dom dom_destroy ;;
     dom_do dom (dom_undefineFlags VIR_DOMAIN_UNDEFINE_NVRAM))
    (Py.exn_eqb Py.libvirtError)
    (warning ("Fail to delete domain " ++ VirtXml.name (_xml self))).

(** [destroy], second block ("Delete XML file"). *)
Definition destroy_xml_file (self : VMMLibvirt) : M unit :=
  e <- get_env ;;
  if os_path_exists host e (VirtXml.filepath (_xml self))
  then
    try_except
      (emit (EvRemove (VirtXml.filepath (_xml self))) ;;
       e <- get_env ;;
       match os_remove host (VirtXml.filepath (_xml self)) e with
       | Some e' => put_env e'
       | None => raise Py.OSError
       end)
      (Py.exn_eqb Py.OSError)     (* [IOError] is [OSError] *)
      (warning ("Fail to delete Virt XML " ++ VirtXml.filepath (_xml self)))
  else ret tt.

Definition destroy (self : VMMLibvirt) : M unit :=
  destroy_domain self ;;
  destroy_xml_file self.

Definition is_running (self : VMMLibvirt) : M bool :=
  dom <- _get_domain self ;;
  state <- dom_get_state dom ;;
  ret (state =? VIR_DOMAIN_RUNNING).

Definition is_shutoff (self : VMMLibvirt) : M bool :=
  dom <- _get_domain self ;;
  state <- dom_get_state dom ;;
  ret (state =? VIR_DOMAIN_SHUTOFF).

Definition resume (self : VMMLibvirt) : M unit :=
  dom <- _get_domain self ;;
  running <- is_running self ;;
  if negb running then dom_do dom dom_resume else ret tt.

Definition start (self : VMMLibvirt) : M unit :=
  shutoff <- is_shutoff self ;;
  if shutoff
  then dom <- _get_domain self ;; dom_do dom dom_create
  else resume self.

Definition suspend (self : VMMLibvirt) : M unit :=
  dom <- _get_domain self ;;
  running <- is_running self ;;
  if running then dom_do dom dom_suspend else ret tt.

Definition reboot (self : VMMLibvirt) : M unit :=
  dom <- _get_domain self ;;
  dom_do dom dom_reboot.

Definition shutdown (self : VMMLibvirt) : M unit :=
  dom <- _get_domain self ;;
  dom_do dom dom_shutdown.

(** [state()]; the final [return None] is [None] here. *)
Definition state (self : VMMLibvirt) : M (option vm_state) :=
  dom <- _get_domain self ;;
  state <- dom_get_state dom ;;
  if state =? VIR_DOMAIN_RUNNING then ret (Some VM_STATE_RUNNING)
  else if state =? VIR_DOMAIN_PAUSED then ret (Some VM_STATE_PAUSE)
  else if state =? VIR_DOMAIN_SHUTDOWN then ret (Some VM_STATE_SHUTDOWN_IN_PROGRESS)
  else if state =? VIR_DOMAIN_SHUTOFF then ret (Some VM_STATE_SHUTDOWN)
  else ret None.

(** *** IP discovery *)

(** [NativeCmdRunner(["arp", "-a"], silent=True)], [runwait()] and the
    lines of [runner.stdout]. *)
Definition run_arp : M (list string) :=
  emit EvArp ;;
  e <- get_env ;;
  let (stdout, e') := arp_a host e in
  put_env e' ;;
  ret stdout.

Definition sleep (secs : Z) : M unit :=
  emit (EvSleep secs) ;;
  e <- get_env ;;
  put_env (time_sleep host secs e).

(** The body of [for line in runner.stdout]. *)
Definition scan_line (vm_mac_address : list string) (line : string) : M unit :=
  let ipaddr := Re.search Re.ipv4 line in
  let macaddr := Re.search Re.mac line in
  match ipaddr, macaddr with
  | Some ipaddr, Some macaddr =>
      m <- index (Re.groups macaddr) 0 ;;
      v <- index vm_mac_address 0 ;;
      if String.eqb m v
      then i <- index (Re.groups ipaddr) 0 ;; set__ip (Some i)
      else ret tt
  | _, _ => ret tt                    (* [continue] *)
  end.

Fixpoint scan (vm_mac_address : list string) (lines : list string) : M unit :=
  match lines with
  | [] => ret tt
  | line :: rest => scan_line vm_mac_address line ;; scan vm_mac_address rest
  end.

(** [while retry > 0: ...], by recursion on [retry]. *)
Fixpoint poll (vm_mac_address : list string) (retry : nat) : M unit :=
  match retry with
  | O => ret tt
  | S retry' =>
      stdout <- run_arp ;;
      scan vm_mac_address stdout ;;
      ip <- get__ip ;;
      if negb (Py.is_None ip) then ret tt          (* [break] *)
      else sleep 1 ;; poll vm_mac_address retry'
  end.

(** [get_ip]. [re.search(...)] is a match object or [None], and
    [.groups()] is called on it at once; [groups()] of a match object
    is a tuple. [time.time()] only feeds the debug line. *)
Definition get_ip (self : VMMLibvirt) (force_refresh : bool) : M (option string) :=
  ip <- get__ip ;;
  if negb force_refresh && negb (Py.is_None ip) then ret ip
  else
    dom <- _get_domain self ;;
    e <- get_env ;;
    vm_mac_address <-
      match Re.search Re.mac_xml (dom_XMLDesc host e dom) with
      | None => raise Py.AttributeError
      | Some m => ret (Some (Re.groups m))
      end ;;
    match vm_mac_address with
    | None =>
        warning "Could not find the available MAC address for VM" ;;
        ret None
    | Some vm_mac_address =>
        poll vm_mac_address ARP_INTERVAL ;;
        get__ip
    end.

(** *** Guest-agent relay *)

Definition _qemu_agent_command (self : VMMLibvirt) (cmd : string) : M string :=
  dom <- _get_domain self ;;
  emit (EvAgent cmd) ;;
  e <- get_env ;;
  let (r, e') := qemuAgentCommand host dom cmd 30 0 e in
  put_env e' ;;
  match r with
  | Some response => ret response
  | None => raise Py.libvirtError
  end.

Definition loads (s : string) : M json :=
  match json_loads lib s with
  | Some j => ret j
  | None => raise Py.JSONDecodeError
  end.

(** [j[key]] with a string key. *)
Definition getitem (j : json) (key : string) : M json :=
  match j with
  | JObj members =>
      match dict_get members key with
      | Some v => ret v
      | None => raise Py.KeyError
      end
  | _ => raise Py.TypeError
  end.

Definition q (s : string) : string := Py.dq ++ s ++ Py.dq.

Definition cmd_shutdown : string :=
  "{" ++ q "execute" ++ ": " ++ q "guest-shutdown" ++ "}".

Definition cmd_reboot : string :=
  "{" ++ q "execute" ++ ": " ++ q "guest-shutdown" ++ ", " ++ q "arguments"
  ++ ": {" ++ q "mode" ++ ": " ++ q "reboot" ++ "}}".

Definition cmd_file_open (path mode : string) : string :=
  "{" ++ q "execute" ++ ": " ++ q "guest-file-open" ++ ", " ++ q "arguments"
  ++ ":{" ++ q "path" ++ ": " ++ q path ++ ", " ++ q "mode" ++ ": " ++ q mode ++ "}}".

Definition cmd_file_write (handle content : string) : string :=
  "{" ++ q "execute" ++ ": " ++ q "guest-file-write" ++ ", " ++ q "arguments"
  ++ " : {" ++ q "handle" ++ ": " ++ handle ++ ", " ++ q "buf-b64" ++ ": "
  ++ q content ++ " }}".

Definition cmd_file_read (handle : string) : string :=
  "{" ++ q "execute" ++ ": " ++ q "guest-file-read" ++ ", " ++ q "arguments"
  ++ " : {" ++ q "handle" ++ ": " ++ handle ++ " }}".

(** The close command of [qemu_agent_file_write]. *)
Definition cmd_file_close_w (handle : string) : string :=
  "{" ++ q "execute" ++ ": " ++ q "guest-file-close" ++ ", " ++ q "arguments"
  ++ ":{" ++ q "handle" ++ ": " ++ handle ++ " }}".

(** The close command of [qemu_agent_file_read]. *)
Definition cmd_file_close_r (handle : string) : string :=
  "{" ++ q "execute" ++ ": " ++ q "guest-file-close" ++ ", " ++ q "arguments"
  ++ ": {" ++ q "handle" ++ ": " ++ handle ++ " }}".

Definition qemu_agent_shutdown (self : VMMLibvirt) : M string :=
  _qemu_agent_command self cmd_shutdown.

Definition qemu_agent_reboot (self : VMMLibvirt) : M string :=
  _qemu_agent_command self cmd_reboot.

Definition qemu_agent_file_write (self : VMMLibvirt) (path content : string) : M bool :=
  ret_ <- _qemu_agent_command self (cmd_file_open path "w+") ;;
  assert (Py.str_in "return" ret_) ;;
  j <- loads ret_ ;;
  filedescriptor <- getitem j "return" ;;
  ret_ <- _qemu_agent_command self
            (cmd_file_write (format_s lib filedescriptor) content) ;;
  assert (Py.str_in "return" ret_) ;;
  ret_ <- _qemu_agent_command self
            (cmd_file_close_w (format_s lib filedescriptor)) ;;
  assert (Py.str_in "return" ret_) ;;
  ret true.

(** In [qemu_agent_file_read] the response of the read command is bound
    to [content], and the assertion after it tests [ret] again, which
    still holds the response of the open command. *)
Definition qemu_agent_file_read (self : VMMLibvirt) (path : string) : M json :=
  ret_ <- _qemu_agent_command self (cmd_file_open path "r") ;;
  assert (Py.str_in "return" ret_) ;;
  j <- loads ret_ ;;
  filedescriptor <- getitem j "return" ;;
  content <- _qemu_agent_command self
               (cmd_file_read (format_s lib filedescriptor)) ;;
  assert (Py.str_in "return" ret_) ;;
  ret_ <- _qemu_agent_command self
            (cmd_file_close_r (format_s lib filedescriptor)) ;;
  assert (Py.str_in "return" ret_) ;;
  j <- loads content ;;
  r <- getitem j "return" ;;
  getitem r "buf-b64".

End Backend.

(** ** A simulated host

    One domain at most, a file system that is a list of paths, an ARP
    table and a guest agent that replay a script. It instantiates [Host]
    for the examples below. *)

Module Sim.

Record env : Type := mk {
  libvirtd : bool;                      (* the daemon accepts connections *)
  domain : option (string * Z);         (* UUID and power state *)
  xmldesc : string;
  files : list string;
  arp_script : list (list string);      (* successive outputs of [arp -a] *)
  agent_script : list (option string);  (* successive agent responses *)
  clock : Z;
  cpu_base_freq : Z
}.

Definition with_domain (d : option (string * Z)) (e : env) : env :=
  mk (libvirtd e) d (xmldesc e) (files e) (arp_script e) (agent_script e)
     (clock e) (cpu_base_freq e).

Definition lookup (e : env) (uuid : string) : bool :=
  match domain e with
  | Some (u, _) => String.eqb u uuid
  | None => false
  end.

Definition power_state (e : env) (uuid : string) : Z :=
  match domain e with
  | Some (_, st) => st
  | None => 0
  end.

(** libvirt's transitions between power states; [None] is an error. *)
Definition call (c : DomCall) (uuid : string) (e : env) : option env :=
  if negb (lookup e uuid) then None
  else
    let st := power_state e uuid in
    match c with
    | dom_create =>
        if st =? VIR_DOMAIN_SHUTOFF
        then Some (with_domain (Some (uuid, VIR_DOMAIN_RUNNING)) e) else None
    | dom_destroy =>
        if st =? VIR_DOMAIN_SHUTOFF
        then None else Some (with_domain (Some (uuid, VIR_DOMAIN_SHUTOFF)) e)
    | dom_undefineFlags _ => Some (with_domain None e)
    | dom_suspend =>
        if st =? VIR_DOMAIN_RUNNING
        then Some (with_domain (Some (uuid, VIR_DOMAIN_PAUSED)) e) else None
    | dom_resume =>
        if st =? VIR_DOMAIN_PAUSED
        then Some (with_domain (Some (uuid, VIR_DOMAIN_RUNNING)) e) else None
    | dom_reboot =>
        if st =? VIR_DOMAIN_RUNNING then Some e else None
    | dom_shutdown =>
        if st =? VIR_DOMAIN_RUNNING
        then Some (with_domain (Some (uuid, VIR_DOMAIN_SHUTDOWN)) e) else None
    end.

Definition agent (uuid cmd : string) (timeout flags : Z) (e : env) : option string * env :=
  match agent_script e with
  | [] => (None, e)
  | r :: rest =>
      (r, mk (libvirtd e) (domain e) (xmldesc e) (files e) (arp_script e) rest
             (clock e) (cpu_base_freq e))
  end.

Definition exists_ (e : env) (path : string) : bool :=
  existsb (String.eqb path) (files e).

Definition remove (path : string) (e : env) : option env :=
  if exists_ e path
  then Some (mk (libvirtd e) (domain e) (xmldesc e)
                (filter (fun p => negb (String.eqb path p)) (files e))
                (arp_script e) (agent_script e) (clock e) (cpu_base_freq e))
  else None.

Definition arp (e : env) : list string * env :=
  match arp_script e with
  | [] => ([], e)
  | out :: rest =>
      (out, mk (libvirtd e) (domain e) (xmldesc e) (files e) rest (agent_script e)
               (clock e) (cpu_base_freq e))
  end.

Definition sleep (secs : Z) (e : env) : env :=
  mk (libvirtd e) (domain e) (xmldesc e) (files e) (arp_script e) (agent_script e)
     (clock e + secs) (cpu_base_freq e).

Definition clone (template name : string) : VirtXml.t :=
  VirtXml.mk name (name ++ ".xml") 0 "" "" 0 0 0 0 None None None None None None None None.

Definition host : Host env := {|
  libvirt_open := libvirtd;
  lookupByUUIDString := lookup;
  dom_state := power_state;
  dom_XMLDesc := fun e _ => xmldesc e;
  dom_call := call;
  qemuAgentCommand := agent;
  os_path_exists := exists_;
  os_remove := remove;
  os_system := fun _ e => e;
  arp_a := arp;
  time_sleep := sleep;
  get_cpu_base_freq := cpu_base_freq;
  VirtXml_clone := clone;
  module_dir := "/usr/lib/python3/site-packages/pycloudstack"
|}.

Definition param : VmParam := {|
  BOOT_TYPE_GRUB := "grub";
  BIOS_BINARY_LEGACY := "/usr/share/seabios/bios.bin";
  BIOS_OVMF_CODE := "/usr/share/qemu/OVMF_CODE.fd";
  BIOS_OVMF_VARS := "/usr/share/qemu/OVMF_VARS.fd"
|}.

Definition uuid : string := "4e1b2c3d-0000-4000-8000-000000000001".

Definition guest (t : vmtype) (boot : string) : VMGuest := {|
  vm_vmtype := t;
  vm_name := "vm1";
  vm_vmid := uuid;
  vm_memsize := 2;
  vm_image_filepath := "/var/lib/images/vm1.qcow2";
  vm_cpu_topology := {| vcpus := 2; sockets := 1; cores := 2; threads := 1 |};
  vm_hugepages := false;
  vm_hugepage_size := 0;
  vm_vsock := false;
  vm_vsock_cid := 0;
  vm_boot := boot;
  vm_kernel := Some "/boot/vmlinuz";
  vm_cmdline := {| __str__ := "root=/dev/vda1 console=hvc0" |};
  vm_ssh_forward_port := 10022
|}.

(** A host with the domain of [guest] in power state [st]. *)
Definition env0 (st : Z) : env := {|
  libvirtd := true;
  domain := Some (uuid, st);
  xmldesc := "<domain><interface type='bridge'><mac address='52:54:00:12:34:56'/></interface></domain>";
  files := ["vm1.xml"];
  arp_script := [];
  agent_script := [];
  clock := 0;
  cpu_base_freq := 2000000
|}.

Definition state0 (e : env) (ip : option string) : State env :=
  mkState e [] ip.

(** A backend object as [__init__] leaves it. *)
Definition self : VMMLibvirt := {|
  vminst := guest VM_TYPE_TD "direct";
  _virt_conn := Some qemu_system;
  _xml := clone "tdx-base" "vm1"
|}.

Definition with_xmldesc (x : string) (e : env) : env :=
  mk (libvirtd e) (domain e) x (files e) (arp_script e) (agent_script e)
     (clock e) (cpu_base_freq e).

Definition with_arp (script : list (list string)) (e : env) : env :=
  mk (libvirtd e) (domain e) (xmldesc e) (files e) script (agent_script e)
     (clock e) (cpu_base_freq e).

Definition with_agent (script : list (option string)) (e : env) : env :=
  mk (libvirtd e) (domain e) (xmldesc e) (files e) (arp_script e) script
     (clock e) (cpu_base_freq e).

Definition with_cpu_base_freq (f : Z) (e : env) : env :=
  mk (libvirtd e) (domain e) (xmldesc e) (files e) (arp_script e) (agent_script e)
     (clock e) f.

(** Lines of [arp -a]: the guest's, and another machine's. *)
Definition arp_guest : string :=
  "? (192.0.2.10) at 52:54:00:12:34:56 [ether] on virbr0".
Definition arp_other : string :=
  "gateway (192.0.2.1) at 52:54:00:aa:bb:cc [ether] on virbr0".

(** Agent responses: an open that returns handle 1000, a read that
    returns the content, a read that reports an error, a close. *)
Definition open_response : string := "{" ++ q "return" ++ ": 1000}".
Definition read_response : string :=
  "{" ++ q "return" ++ ": {" ++ q "count" ++ ": 5, " ++ q "buf-b64" ++ ": "
  ++ q "aGVsbG8=" ++ ", " ++ q "eof" ++ ": true}}".
Definition read_error : string :=
  "{" ++ q "error" ++ ": {" ++ q "class" ++ ": " ++ q "GenericError" ++ ", "
  ++ q "desc" ++ ": " ++ q "handle 1000 has not been found" ++ "}}".
Definition close_response : string := "{" ++ q "return" ++ ": {}}".

(** [json.loads] on the four responses above, and [%s] on integers
    and strings; enough for the examples. *)
Definition loads_table (s : string) : option json :=
  if String.eqb s open_response then Some (JObj [("return", JInt 1000)])
  else if String.eqb s read_response
  then Some (JObj [("return",
                    JObj [("count", JInt 5); ("buf-b64", JStr "aGVsbG8=");
                          ("eof", JBool true)])])
  else if String.eqb s read_error
  then Some (JObj [("error",
                    JObj [("class", JStr "GenericError");
                          ("desc", JStr "handle 1000 has not been found")])])
  else if String.eqb s close_response then Some (JObj [("return", JObj [])])
  else None.

Definition format (j : json) : string :=
  match j with
  | JInt n => NilEmpty.string_of_int (Z.to_int n)
  | JStr s => s
  | _ => ""
  end.

Definition lib : PyLib := {| json_loads := loads_table; format_s := format |}.

(** A backend whose agent answers the read (or write) with an error. *)
Definition failing_read_state : State env :=
  state0
    (with_agent [Some open_response; Some read_error; Some close_response]
       (env0 1))
    None.

End Sim.

(** ** Registration: [create]

    Modelled from the spec: [create] uses two operations of the
    configuration-document collaborator, "render-to-file" ([dump]) and
    "render-to-string" ([tostring]), and libvirt's [defineXML], which
    answers with the handle of the registered domain, here its UUID
    ([None]: [libvirtError]). *)
Record Registrar (Env : Type) : Type := {
  xml_dump : VirtXml.t -> Env -> Env;
  xml_tostring : VirtXml.t -> string;
  defineXML : string -> Env -> option (string * Env)
}.
Arguments xml_dump {Env}.
Arguments xml_tostring {Env}.
Arguments defineXML {Env}.

Section Registration.
Context {Env : Type} (host : Host Env) (reg : Registrar Env).

(** [create]; the body does not mention [stop_at_begining]. *)
Definition create (self : VMMLibvirt) (stop_at_begining : bool) : M Env unit :=
  assert (negb (Py.is_None (_virt_conn self))) ;;
  e <- get_env ;;
  put_env (xml_dump reg (_xml self) e) ;;
  e <- get_env ;;
  match defineXML reg (xml_tostring reg (_xml self)) e with
  | None => raise Py.libvirtError
  | Some (domain, e') =>
      put_env e' ;;
      dom_do host domain dom_create
  end.

End Registration.

(** Registration on the simulated host: [dump] adds the document's
    file, [defineXML] registers a shut-off domain under the UUID of the
    document and refuses when one is registered already. *)
Module SimReg.

Definition dump (x : VirtXml.t) (e : Sim.env) : Sim.env :=
  Sim.mk (Sim.libvirtd e) (Sim.domain e) (Sim.xmldesc e)
    (VirtXml.filepath x :: Sim.files e) (Sim.arp_script e) (Sim.agent_script e)
    (Sim.clock e) (Sim.cpu_base_freq e).

Definition define (xml : string) (e : Sim.env) : option (string * Sim.env) :=
  match Sim.domain e with
  | Some _ => None
  | None => Some (Sim.uuid, Sim.with_domain (Some (Sim.uuid, VIR_DOMAIN_SHUTOFF)) e)
  end.

Definition reg : Registrar Sim.env := {|
  xml_dump := dump;
  xml_tostring := fun x => "<domain><name>" ++ VirtXml.name x ++ "</name></domain>";
  defineXML := define
|}.

End SimReg.

(** ** Observations on hosts and traces

    The vocabulary of the properties below. *)

(** The number of [dom.create()] calls in a trace. *)
Fixpoint creates (t : list event) : nat :=
  match t with
  | [] => O
  | EvDom _ dom_create :: t' => S (creates t')
  | _ :: t' => creates t'
  end.

(** The number of [arp -a] runs in a trace, and the seconds slept. *)
Fixpoint samples (t : list event) : nat :=
  match t with
  | [] => O
  | EvArp :: t' => S (samples t')
  | _ :: t' => samples t'
  end.

Fixpoint slept (t : list event) : Z :=
  match t with
  | [] => 0
  | EvSleep secs :: t' => secs + slept t'
  | _ :: t' => slept t'
  end.

(** The trace after [n] more rounds of sampling and sleeping. *)
Fixpoint missed (n : nat) (t : list event) : list event :=
  match n with
  | O => t
  | S n' => missed n' (EvSleep 1 :: EvArp :: t)
  end.

(** The IP a line of the ARP table gives for the MAC [v], if any. *)
Definition line_ip (v line : string) : option string :=
  match Re.search Re.ipv4 line, Re.search Re.mac line with
  | Some i, Some m =>
      if String.eqb (Re.group1 m) v then Some (Re.group1 i) else None
  | _, _ => None
  end.

(** The IP a sample of the table gives for [v]: the last matching line. *)
Fixpoint table_ip (v : string) (lines : list string) : option string :=
  match lines with
  | [] => None
  | line :: rest =>
      match table_ip v rest with
      | Some i => Some i
      | None => line_ip v line
      end
  end.

Section Observations.
Context {Env : Type} (host : Host Env) (param : VmParam).

(** The path of the per-identity copy of the OVMF variables template. *)
Definition ovmf_vars_copy (vminst : VMGuest) : string :=
  Py.os_path_join (module_dir host) ("OVMF_VARS." ++ vm_vmid vminst ++ ".fd").

Definition cp_command (vminst : VMGuest) : string :=
  "cp " ++ BIOS_OVMF_VARS param ++ " " ++ ovmf_vars_copy vminst.

Definition connected (self : VMMLibvirt) : Prop := _virt_conn self <> None.

(** The domain of [self] is registered on the host in state [s]. *)
Definition defined (self : VMMLibvirt) (s : State Env) : Prop :=
  lookupByUUIDString host (env s) (vm_vmid (vminst self)) = true.

(** The lines of [arp -a] on host [e], and the host one failed round
    later: after the sample and the one-second sleep. *)
Definition sample (e : Env) : list string := fst (arp_a host e).
Definition next_round (e : Env) : Env := time_sleep host 1 (snd (arp_a host e)).

Fixpoint round (k : nat) (e : Env) : Env :=
  match k with
  | O => e
  | S k' => round k' (next_round e)
  end.

(** No sample among the first [n] gives an IP for [v]. *)
Definition all_miss (v : string) (n : nat) (e : Env) : Prop :=
  forall k, (k < n)%nat -> table_ip v (sample (round k e)) = None.

End Observations.

(** The pieces of text an atom of a pattern can take: as many
    characters as its range allows, all of its class. *)
Definition fits (a : Re.atom) (piece : list ascii) : Prop :=
  (Re.lo a <= length piece)%nat
  /\ (forall h, Re.hi a = Some h -> (length piece <= h)%nat)
  /\ forallb (Re.cls a) piece = true.

(** One to three decimal digits. *)
Definition octet (l : list ascii) : Prop :=
  (1 <= length l <= 3)%nat /\ forallb Re.digit l = true.


(** * Properties *)

(** Unfolding of the monad's operations. *)
Ltac mrun :=
  cbv beta iota zeta delta
    [bind ret raise assert try_except get_env put_env emit set__ip get__ip
     system warning index];
  cbn [env trace _ip].

Ltac run_prepare :=
  unfold _prepare_domain_xml; mrun;
  cbn [VirtXml.uuid VirtXml.set_threads VirtXml.set_cores
       VirtXml.set_sockets VirtXml.set_vcpu VirtXml.set_imagefile
       VirtXml.set_uuid VirtXml.set_memory].

(** ** Configuration document *)

Section DomainXml.
Context {Env : Type} (host : Host Env) (param : VmParam).


(** C5. For every guest specification, of every flavor, the document
    is produced, and its boot fields follow the boot mode: with
    [BOOT_TYPE_GRUB] kernel and cmdline are both [None]; with any other
    boot mode kernel is the guest's kernel and cmdline is [str] of the
    guest's cmdline. *)
Theorem boot_fields_follow_boot_mode (vminst : VMGuest) (s : State Env) :
  exists xml s',
    _prepare_domain_xml host param vminst s = (Py.Ok xml, s')
    /\ (vm_boot vminst = BOOT_TYPE_GRUB param ->
        VirtXml.kernel xml = None /\ VirtXml.cmdline xml = None)
    /\ (vm_boot vminst <> BOOT_TYPE_GRUB param ->
        VirtXml.kernel xml = vm_kernel vminst
        /\ VirtXml.cmdline xml = Some (str (vm_cmdline vminst))).
Proof.
  run_prepare.
  destruct (String.eqb_spec (vm_boot vminst) (BOOT_TYPE_GRUB param)) as [Hb | Hb];
    destruct (vm_vmtype vminst); simpl;
    try destruct (get_cpu_base_freq host _ <? 1000000);
    (do 2 eexists; split; [reflexivity | simpl; split; intros Hm]);
    solve [ split; reflexivity | contradiction ].
Qed.

(** C6. For the trusted-execution flavor the CPU feature string is set;
    it contains [tsc-freq=1000000000] exactly when the host's base
    frequency is below 1000000, and otherwise it is the baseline
    [host,-kvm-steal-time,pmu=off]. The frequency is read from the host
    as it is after the [cp] command. *)
Theorem td_cpu_params_tsc_pin (vminst : VMGuest) (s : State Env) :
  vm_vmtype vminst = VM_TYPE_TD ->
  let freq := get_cpu_base_freq host (os_system host (cp_command host param vminst) (env s)) in
  exists xml s' features,
    _prepare_domain_xml host param vminst s = (Py.Ok xml, s')
    /\ VirtXml.cpu_params xml = Some features
    /\ (Py.str_in "tsc-freq=1000000000" features = true <-> freq < 1000000)
    /\ (freq < 1000000 ->
        features = "host,-kvm-steal-time,pmu=off,tsc-freq=1000000000")
    /\ (~ freq < 1000000 -> features = "host,-kvm-steal-time,pmu=off").
Proof.
  intros Ht freq.
  assert (E : get_cpu_base_freq host (os_system host (cp_command host param vminst) (env s)) = freq)
    by reflexivity.
  clearbody freq. unfold cp_command, ovmf_vars_copy in E.
  run_prepare. rewrite Ht. cbn [env trace _ip]. rewrite E.
  destruct (Z.ltb_spec freq 1000000) as [Hf | Hf];
    destruct (String.eqb (vm_boot vminst) (BOOT_TYPE_GRUB param));
    (do 3 eexists; split; [reflexivity | split; [reflexivity |]]);
    (split; [split; intros H; [ first [ assumption | discriminate H ]
                              | first [ reflexivity | lia ] ]
            | split; intros H; first [ reflexivity | lia ] ]).
Qed.


End DomainXml.

(** The direct-kernel branch of C5 on the simulated host. *)
Example boot_fields_direct_example :
  exists xml s',
    _prepare_domain_xml Sim.host Sim.param (Sim.guest VM_TYPE_EFI "direct")
      (Sim.state0 (Sim.env0 5) None) = (Py.Ok xml, s')
    /\ VirtXml.kernel xml = Some "/boot/vmlinuz"
    /\ VirtXml.cmdline xml = Some "root=/dev/vda1 console=hvc0".
Proof. do 2 eexists. split; [reflexivity | split; reflexivity]. Qed.

(** The bootloader branch of C5 on the simulated host. *)
Example boot_fields_grub_example :
  exists xml s',
    _prepare_domain_xml Sim.host Sim.param (Sim.guest VM_TYPE_SGX "grub")
      (Sim.state0 (Sim.env0 5) None) = (Py.Ok xml, s')
    /\ VirtXml.kernel xml = None
    /\ VirtXml.cmdline xml = None.
Proof. do 2 eexists. split; [reflexivity | split; reflexivity]. Qed.

(** C6 at a TD guest on the simulated host (base frequency 2000000). *)
Lemma td_cpu_params_tsc_pin_witness :
  vm_vmtype (Sim.guest VM_TYPE_TD "direct") = VM_TYPE_TD
  /\ exists xml s' features,
       _prepare_domain_xml Sim.host Sim.param (Sim.guest VM_TYPE_TD "direct")
         (Sim.state0 (Sim.env0 5) None) = (Py.Ok xml, s')
       /\ VirtXml.cpu_params xml = Some features
       /\ (Py.str_in "tsc-freq=1000000000" features = true <-> 2000000 < 1000000)
       /\ (2000000 < 1000000 ->
           features = "host,-kvm-steal-time,pmu=off,tsc-freq=1000000000")
       /\ (~ 2000000 < 1000000 -> features = "host,-kvm-steal-time,pmu=off").
Proof.
  split; [reflexivity |].
  apply (td_cpu_params_tsc_pin Sim.host Sim.param (Sim.guest VM_TYPE_TD "direct")
           (Sim.state0 (Sim.env0 5) None)).
  reflexivity.
Defined.

(** A TD guest on a host whose base frequency is 999999: the pin is set. *)
Example td_low_frequency_example :
  match fst (_prepare_domain_xml Sim.host Sim.param (Sim.guest VM_TYPE_TD "direct")
               (Sim.state0 (Sim.with_cpu_base_freq 999999 (Sim.env0 5)) None))
  with
  | Py.Ok xml =>
      VirtXml.cpu_params xml
      = Some "host,-kvm-steal-time,pmu=off,tsc-freq=1000000000"
  | Py.Raise _ => False
  end.
Proof. vm_compute. reflexivity. Qed.


(** ** Lifecycle *)

Section Lifecycle.
Context {Env : Type} (host : Host Env).

Lemma _get_domain_found (self : VMMLibvirt) (s : State Env) :
  connected self -> defined host self s ->
  _get_domain host self s = (Py.Ok (vm_vmid (vminst self)), s).
Proof.
  unfold connected, defined, _get_domain. intros Hc Hd.
  destruct (_virt_conn self); [| contradiction].
  mrun. cbn. rewrite Hd. reflexivity.
Qed.

Lemma _get_domain_missing (self : VMMLibvirt) (s : State Env) :
  connected self ->
  lookupByUUIDString host (env s) (vm_vmid (vminst self)) = false ->
  _get_domain host self s = (Py.Raise Py.libvirtError, s).
Proof.
  unfold connected, _get_domain. intros Hc Hd.
  destruct (_virt_conn self); [| contradiction].
  mrun. cbn. rewrite Hd. reflexivity.
Qed.

Lemma is_running_found (self : VMMLibvirt) (s : State Env) :
  connected self -> defined host self s ->
  is_running host self s
  = (Py.Ok (dom_state host (env s) (vm_vmid (vminst self)) =? VIR_DOMAIN_RUNNING), s).
Proof.
  intros Hc Hd. unfold is_running, bind.
  rewrite (_get_domain_found self s Hc Hd). reflexivity.
Qed.

Lemma is_shutoff_found (self : VMMLibvirt) (s : State Env) :
  connected self -> defined host self s ->
  is_shutoff host self s
  = (Py.Ok (dom_state host (env s) (vm_vmid (vminst self)) =? VIR_DOMAIN_SHUTOFF), s).
Proof.
  intros Hc Hd. unfold is_shutoff, bind.
  rewrite (_get_domain_found self s Hc Hd). reflexivity.
Qed.

(** What [dom.<c>()] leaves behind: the call is in the trace whether it
    raised or not. *)
Lemma dom_do_run (dom : string) (c : DomCall) (s : State Env) :
  dom_do host dom c s
  = match dom_call host c dom (env s) with
    | Some e' => (Py.Ok tt, mkState e' (EvDom dom c :: trace s) (_ip s))
    | None => (Py.Raise Py.libvirtError,
               mkState (env s) (EvDom dom c :: trace s) (_ip s))
    end.
Proof.
  unfold dom_do. mrun. destruct (dom_call host c dom (env s)); reflexivity.
Qed.

Lemma resume_run (self : VMMLibvirt) (s : State Env) :
  connected self -> defined host self s ->
  resume host self s
  = if dom_state host (env s) (vm_vmid (vminst self)) =? VIR_DOMAIN_RUNNING
    then (Py.Ok tt, s)
    else dom_do host (vm_vmid (vminst self)) dom_resume s.
Proof.
  intros Hc Hd. unfold resume, bind.
  rewrite (_get_domain_found self s Hc Hd), (is_running_found self s Hc Hd).
  destruct (dom_state host (env s) (vm_vmid (vminst self)) =? VIR_DOMAIN_RUNNING);
    reflexivity.
Qed.

(** C3, as the code has it. With the domain registered, [state()]
    returns without raising and leaves the backend as it was; it maps
    RUNNING, PAUSED, SHUTDOWN and SHUTOFF to [VM_STATE_RUNNING],
    [VM_STATE_PAUSE], [VM_STATE_SHUTDOWN_IN_PROGRESS] and
    [VM_STATE_SHUTDOWN], and every other power state to [None], which
    is no value of the state enum. *)
Theorem state_maps_power_state (self : VMMLibvirt) (s : State Env) :
  connected self -> defined host self s ->
  let c := dom_state host (env s) (vm_vmid (vminst self)) in
  exists r,
    state host self s = (Py.Ok r, s)
    /\ (c = VIR_DOMAIN_RUNNING -> r = Some VM_STATE_RUNNING)
    /\ (c = VIR_DOMAIN_PAUSED -> r = Some VM_STATE_PAUSE)
    /\ (c = VIR_DOMAIN_SHUTDOWN -> r = Some VM_STATE_SHUTDOWN_IN_PROGRESS)
    /\ (c = VIR_DOMAIN_SHUTOFF -> r = Some VM_STATE_SHUTDOWN)
    /\ (c <> VIR_DOMAIN_RUNNING -> c <> VIR_DOMAIN_PAUSED ->
        c <> VIR_DOMAIN_SHUTDOWN -> c <> VIR_DOMAIN_SHUTOFF -> r = None).
Proof.
  intros Hc Hd c. unfold state, bind.
  rewrite (_get_domain_found self s Hc Hd).
  unfold dom_get_state. mrun. fold c.
  unfold VIR_DOMAIN_RUNNING, VIR_DOMAIN_PAUSED, VIR_DOMAIN_SHUTDOWN,
    VIR_DOMAIN_SHUTOFF.
  destruct (Z.eqb_spec c 1); [| destruct (Z.eqb_spec c 3);
    [| destruct (Z.eqb_spec c 4); [| destruct (Z.eqb_spec c 5)]]];
    (eexists; split; [reflexivity |]);
    repeat split; intros; first [ reflexivity | lia ].
Qed.

(** C7. With the domain registered: [start()] on a shut-off domain
    calls [dom.create()] once and nothing else; in every other state it
    runs [resume()], which calls [dom.resume()] when the domain is not
    running and calls nothing when it is; so outside the shut-off state
    [start()] adds no [dom.create()] to the trace. *)
Theorem start_creates_only_when_shutoff (self : VMMLibvirt) (s : State Env) :
  connected self -> defined host self s ->
  let dom := vm_vmid (vminst self) in
  let c := dom_state host (env s) dom in
  (c = VIR_DOMAIN_SHUTOFF ->
   start host self s = dom_do host dom dom_create s
   /\ trace (snd (start host self s)) = EvDom dom dom_create :: trace s)
  /\ (c <> VIR_DOMAIN_SHUTOFF ->
      start host self s = resume host self s
      /\ creates (trace (snd (start host self s))) = creates (trace s))
  /\ (c <> VIR_DOMAIN_RUNNING ->
      resume host self s = dom_do host dom dom_resume s
      /\ trace (snd (resume host self s)) = EvDom dom dom_resume :: trace s)
  /\ (c = VIR_DOMAIN_RUNNING -> resume host self s = (Py.Ok tt, s)).
Proof.
  intros Hc Hd dom c.
  assert (Hstart : start host self s
                   = if c =? VIR_DOMAIN_SHUTOFF
                     then dom_do host dom dom_create s
                     else resume host self s).
  { unfold start, bind. rewrite (is_shutoff_found self s Hc Hd). fold dom c.
    destruct (c =? VIR_DOMAIN_SHUTOFF); [| reflexivity].
    rewrite (_get_domain_found self s Hc Hd). reflexivity. }
  pose proof (resume_run self s Hc Hd) as Hres. fold dom c in Hres.
  split; [| split; [| split]]; intros E.
  - apply Z.eqb_eq in E. rewrite Hstart, E. split; [reflexivity |].
    rewrite dom_do_run.
    destruct (dom_call host dom_create dom (env s)); reflexivity.
  - apply Z.eqb_neq in E. rewrite Hstart, E. split; [reflexivity |].
    rewrite Hres.
    destruct (c =? VIR_DOMAIN_RUNNING); [reflexivity |].
    rewrite dom_do_run.
    destruct (dom_call host dom_resume dom (env s)); reflexivity.
  - apply Z.eqb_neq in E. rewrite Hres, E. split; [reflexivity |].
    rewrite dom_do_run.
    destruct (dom_call host dom_resume dom (env s)); reflexivity.
  - apply Z.eqb_eq in E. rewrite Hres, E. reflexivity.
Qed.

(** Every backend that [__init__] returns holds a connection. *)
Lemma __init___connected (param : VmParam) (vminst : VMGuest) (s s' : State Env)
    (self : VMMLibvirt) :
  __init__ host param vminst s = (Py.Ok self, s') -> connected self.
Proof.
  unfold __init__, _connect_virt. mrun.
  destruct (libvirt_open host (env s)); cbv beta iota delta [negb Py.is_None].
  - destruct (_prepare_domain_xml host param vminst s) as [[xml | e] s1].
    + intros H. injection H as <- _. discriminate.
    + discriminate.
  - discriminate.
Qed.

(** The first block of [destroy], case by case on the host's answers. *)
Lemma destroy_domain_run (self : VMMLibvirt) (s : State Env) :
  connected self ->
  let dom := vm_vmid (vminst self) in
  let warn := EvWarning ("Fail to delete domain " ++ VirtXml.name (_xml self)) in
  let undefine := dom_undefineFlags VIR_DOMAIN_UNDEFINE_NVRAM in
  destroy_domain host self s
  = (Py.Ok tt,
     if lookupByUUIDString host (env s) dom
     then match dom_call host dom_destroy dom (env s) with
          | None => mkState (env s) (warn :: EvDom dom dom_destroy :: trace s) (_ip s)
          | Some e1 =>
              match dom_call host undefine dom e1 with
              | None =>
                  mkState e1 (warn :: EvDom dom undefine :: EvDom dom dom_destroy
                                   :: trace s) (_ip s)
              | Some e2 =>
                  mkState e2 (EvDom dom undefine :: EvDom dom dom_destroy :: trace s)
                          (_ip s)
              end
          end
     else mkState (env s) (warn :: trace s) (_ip s)).
Proof.
  intros Hc dom warn undefine. unfold destroy_domain, try_except, bind.
  destruct (lookupByUUIDString host (env s) dom) eqn:Hd.
  - rewrite (_get_domain_found self s Hc Hd), dom_do_run. fold dom.
    destruct (dom_call host dom_destroy dom (env s)) as [e1 |]; [| reflexivity].
    rewrite dom_do_run. cbn [env trace _ip]. fold undefine.
    destruct (dom_call host undefine dom e1); reflexivity.
  - rewrite (_get_domain_missing self s Hc Hd). reflexivity.
Qed.

(** The second block of [destroy], case by case on the host's answers. *)
Lemma destroy_xml_file_run (self : VMMLibvirt) (s : State Env) :
  let path := VirtXml.filepath (_xml self) in
  destroy_xml_file host self s
  = (Py.Ok tt,
     if os_path_exists host (env s) path
     then match os_remove host path (env s) with
          | Some e' => mkState e' (EvRemove path :: trace s) (_ip s)
          | None =>
              mkState (env s)
                (EvWarning ("Fail to delete Virt XML " ++ path)
                 :: EvRemove path :: trace s) (_ip s)
          end
     else s).
Proof.
  intros path. unfold destroy_xml_file. mrun. fold path.
  destruct (os_path_exists host (env s) path); [| reflexivity].
  destruct (os_remove host path (env s)); reflexivity.
Qed.

Lemma destroy_run (self : VMMLibvirt) (s : State Env) :
  connected self ->
  destroy host self s
  = destroy_xml_file host self (snd (destroy_domain host self s)).
Proof.
  intros Hc. unfold destroy, bind.
  rewrite (destroy_domain_run self s Hc). reflexivity.
Qed.


End Lifecycle.

(** C3 on the simulated host: a running domain. *)
Lemma state_maps_power_state_witness :
  connected Sim.self
  /\ defined Sim.host Sim.self (Sim.state0 (Sim.env0 1) None)
  /\ state Sim.host Sim.self (Sim.state0 (Sim.env0 1) None)
     = (Py.Ok (Some VM_STATE_RUNNING), Sim.state0 (Sim.env0 1) None).
Proof.
  assert (Hc : connected Sim.self) by discriminate.
  assert (Hd : defined Sim.host Sim.self (Sim.state0 (Sim.env0 1) None))
    by reflexivity.
  split; [exact Hc |]. split; [exact Hd |].
  destruct (state_maps_power_state Sim.host Sim.self
              (Sim.state0 (Sim.env0 1) None) Hc Hd)
    as (r & Hrun & Hrunning & _).
  rewrite Hrun, (Hrunning eq_refl). reflexivity.
Defined.

(** C3 as stated fails: for a crashed domain (libvirt's power state 6)
    [state()] returns Python's [None], not a value [VM_STATE_UNKNOWN]. *)
Lemma state_unmapped_is_None :
  fst (state Sim.host Sim.self (Sim.state0 (Sim.env0 6) None)) = Py.Ok None
  /\ fst (state Sim.host Sim.self (Sim.state0 (Sim.env0 6) None))
     <> Py.Ok (Some VM_STATE_UNKNOWN).
Proof. split; [reflexivity | discriminate]. Qed.

(** C7 on the simulated host: [start()] on a paused domain resumes it
    and creates nothing. *)
Lemma start_creates_only_when_shutoff_witness :
  connected Sim.self
  /\ defined Sim.host Sim.self (Sim.state0 (Sim.env0 3) None)
  /\ start Sim.host Sim.self (Sim.state0 (Sim.env0 3) None)
     = resume Sim.host Sim.self (Sim.state0 (Sim.env0 3) None)
  /\ creates (trace (snd (start Sim.host Sim.self (Sim.state0 (Sim.env0 3) None))))
     = O.
Proof.
  assert (Hc : connected Sim.self) by discriminate.
  assert (Hd : defined Sim.host Sim.self (Sim.state0 (Sim.env0 3) None))
    by reflexivity.
  split; [exact Hc |]. split; [exact Hd |].
  destruct (start_creates_only_when_shutoff Sim.host Sim.self
              (Sim.state0 (Sim.env0 3) None) Hc Hd)
    as (_ & Hother & _).
  apply Hother. discriminate.
Defined.

(** [start()] on a shut-off domain of the simulated host powers it on. *)
Example start_shutoff_example :
  start Sim.host Sim.self (Sim.state0 (Sim.env0 5) None)
  = (Py.Ok tt,
     mkState (Sim.with_domain (Some (Sim.uuid, VIR_DOMAIN_RUNNING)) (Sim.env0 5))
       [EvDom Sim.uuid dom_create] None).
Proof. reflexivity. Qed.


(** The traces of the two [destroy()] calls on the simulated host: the
    first powers off, deregisters and removes the file; the second finds
    no domain, warns, and finds no file. *)
Example destroy_twice_example :
  trace (snd (destroy Sim.host Sim.self (Sim.state0 (Sim.env0 1) None)))
  = [EvRemove "vm1.xml";
     EvDom Sim.uuid (dom_undefineFlags VIR_DOMAIN_UNDEFINE_NVRAM);
     EvDom Sim.uuid dom_destroy]
  /\ trace (snd (destroy Sim.host Sim.self
                   (mkState
                      (env (snd (destroy Sim.host Sim.self
                                   (Sim.state0 (Sim.env0 1) None))))
                      [] None)))
     = [EvWarning "Fail to delete domain vm1"].
Proof. split; reflexivity. Qed.

(** ** IP discovery *)

Lemma samples_missed (n : nat) (t : list event) :
  samples (missed n t) = (n + samples t)%nat.
Proof.
  revert t. induction n as [| n IH]; intros t; cbn [missed]; [reflexivity |].
  rewrite IH. cbn [samples]. lia.
Qed.

Lemma slept_missed (n : nat) (t : list event) :
  slept (missed n t) = Z.of_nat n + slept t.
Proof.
  revert t. induction n as [| n IH]; intros t; cbn [missed]; [reflexivity |].
  rewrite IH. cbn [slept]. lia.
Qed.

Section IpDiscovery.
Context {Env : Type} (host : Host Env).

Lemma scan_line_run (v line : string) (s : State Env) :
  scan_line [v] line s
  = (Py.Ok tt,
     mkState (env s) (trace s)
       (match line_ip v line with Some i => Some i | None => _ip s end)).
Proof.
  unfold scan_line, line_ip.
  destruct (Re.search Re.ipv4 line) as [i |], (Re.search Re.mac line) as [m |];
    try (destruct s; reflexivity).
  unfold Re.groups. mrun. cbn [nth_error].
  destruct (String.eqb (Re.group1 m) v); [reflexivity | destruct s; reflexivity].
Qed.

Lemma scan_run (v : string) (lines : list string) (s : State Env) :
  scan [v] lines s
  = (Py.Ok tt,
     mkState (env s) (trace s)
       (match table_ip v lines with Some i => Some i | None => _ip s end)).
Proof.
  revert s. induction lines as [| line rest IH]; intros s.
  - destruct s; reflexivity.
  - cbn [scan table_ip]. unfold bind. rewrite scan_line_run, IH.
    cbn [env trace _ip].
    destruct (table_ip v rest); reflexivity.
Qed.

(** One turn of the loop body up to the test of [self._ip]. *)
Lemma poll_step (v : string) (retry : nat) (s : State Env) :
  poll host [v] (S retry) s
  = let s1 := mkState (snd (arp_a host (env s))) (EvArp :: trace s)
                (match table_ip v (sample host (env s)) with
                 | Some i => Some i
                 | None => _ip s
                 end) in
    if Py.is_None (_ip s1)
    then poll host [v] retry
           (mkState (next_round host (env s)) (EvSleep 1 :: trace s1) None)
    else (Py.Ok tt, s1).
Proof.
  cbn [poll]. unfold run_arp, sleep. mrun. unfold sample, next_round.
  destruct (arp_a host (env s)) as [stdout e1]. cbn [fst snd].
  mrun. rewrite scan_run. cbn [env trace _ip].
  destruct (table_ip v stdout); [reflexivity |].
  destruct (_ip s); reflexivity.
Qed.

(** The loop never raises and takes at most [retry] samples, each
    failed one followed by a one-second sleep. *)
Lemma poll_bounded (v : string) (retry : nat) (s : State Env) :
  fst (poll host [v] retry s) = Py.Ok tt
  /\ (samples (trace (snd (poll host [v] retry s))) <= retry + samples (trace s))%nat
  /\ slept (trace s) <= slept (trace (snd (poll host [v] retry s)))
     <= slept (trace s) + Z.of_nat retry.
Proof.
  revert s. induction retry as [| retry IH]; intros s.
  - cbn. split; [reflexivity | split; lia].
  - rewrite poll_step. cbv zeta. cbn [_ip trace].
    destruct (Py.is_None _).
    + specialize (IH (mkState (next_round host (env s))
                        (EvSleep 1 :: EvArp :: trace s) None)).
      cbn [trace samples slept] in IH.
      destruct IH as (H1 & H2 & H3). split; [exact H1 | split; lia].
    + cbn [fst snd trace samples slept]. split; [reflexivity | split; lia].
Qed.

(** With an IP already in [self._ip] the loop stops after one sample. *)
Lemma poll_cached (v old : string) (retry : nat) (s : State Env) :
  _ip s = Some old ->
  poll host [v] (S retry) s
  = (Py.Ok tt,
     mkState (snd (arp_a host (env s))) (EvArp :: trace s)
       (Some (match table_ip v (sample host (env s)) with
              | Some i => i
              | None => old
              end))).
Proof.
  intros Hip. rewrite poll_step. cbv zeta. cbn [_ip]. rewrite Hip.
  destruct (table_ip v (sample host (env s))); reflexivity.
Qed.

Lemma all_miss_next (v : string) (n : nat) (e : Env) :
  all_miss host v (S n) e ->
  table_ip v (sample host e) = None /\ all_miss host v n (next_round host e).
Proof.
  intros H. split.
  - apply (H O). lia.
  - intros k Hk. apply (H (S k)). lia.
Qed.

Lemma poll_all_miss (v : string) (retry : nat) (s : State Env) :
  _ip s = None ->
  all_miss host v retry (env s) ->
  poll host [v] retry s
  = (Py.Ok tt, mkState (round host retry (env s)) (missed retry (trace s)) None).
Proof.
  revert s. induction retry as [| retry IH]; intros s Hip Hmiss.
  - destruct s; cbn in *. rewrite Hip. reflexivity.
  - destruct (all_miss_next v retry (env s) Hmiss) as [H0 Hnext].
    rewrite poll_step. cbv zeta. cbn [_ip trace]. rewrite H0, Hip.
    cbn [Py.is_None]. rewrite IH; [reflexivity | reflexivity | exact Hnext].
Qed.

Lemma poll_first_hit (v ip : string) (k retry : nat) (s : State Env) :
  _ip s = None ->
  (k < retry)%nat ->
  all_miss host v k (env s) ->
  table_ip v (sample host (round host k (env s))) = Some ip ->
  poll host [v] retry s
  = (Py.Ok tt,
     mkState (snd (arp_a host (round host k (env s))))
       (EvArp :: missed k (trace s)) (Some ip)).
Proof.
  revert retry s. induction k as [| k IH]; intros retry s Hip Hlt Hmiss Hhit.
  - destruct retry as [| retry]; [lia |].
    rewrite poll_step. cbv zeta. cbn [_ip round] in *. rewrite Hhit.
    reflexivity.
  - destruct retry as [| retry]; [lia |].
    destruct (all_miss_next v k (env s) Hmiss) as [H0 Hnext].
    rewrite poll_step. cbv zeta. cbn [_ip trace]. rewrite H0, Hip.
    cbn [Py.is_None].
    rewrite (IH retry); cbn [env trace _ip round];
      [reflexivity | reflexivity | lia | exact Hnext | exact Hhit].
Qed.

(** Without a forced refresh a cached IP is returned as it is, and the
    host is not consulted. *)
Lemma get_ip_cached (self : VMMLibvirt) (s : State Env) (ip : string) :
  _ip s = Some ip ->
  get_ip host self false s = (Py.Ok (Some ip), s).
Proof.
  intros Hip. unfold get_ip, bind, get__ip. rewrite Hip. reflexivity.
Qed.

(** [get_ip] up to the loop: with nothing cached or a forced refresh,
    and a MAC in the domain description, the result is [self._ip] as
    the loop leaves it. *)
Lemma get_ip_polls (self : VMMLibvirt) (force_refresh : bool) (s : State Env)
    (m : Re.Match) :
  connected self -> defined host self s ->
  force_refresh = true \/ _ip s = None ->
  Re.search Re.mac_xml (dom_XMLDesc host (env s) (vm_vmid (vminst self))) = Some m ->
  get_ip host self force_refresh s
  = (Py.Ok (_ip (snd (poll host [Re.group1 m] ARP_INTERVAL s))),
     snd (poll host [Re.group1 m] ARP_INTERVAL s)).
Proof.
  intros Hc Hd Hfresh Hmac. unfold get_ip.
  unfold bind at 1. unfold get__ip at 1.
  assert (Hgate : negb force_refresh && negb (Py.is_None (_ip s)) = false).
  { destruct Hfresh as [H | H]; rewrite H; [reflexivity |].
    apply andb_false_r. }
  rewrite Hgate. unfold bind at 1. rewrite (_get_domain_found host self s Hc Hd).
  unfold bind at 1. unfold get_env at 1. unfold bind at 1. rewrite Hmac.
  unfold ret at 1. unfold Re.groups. unfold bind.
  pose proof (poll_bounded (Re.group1 m) ARP_INTERVAL s) as [Hok _].
  destruct (poll host [Re.group1 m] ARP_INTERVAL s) as [r s'].
  cbn [fst snd] in *. rewrite Hok. reflexivity.
Qed.

(** C1, as the code has it. When the domain description has no
    [<mac address='...'] the search is [None], [.groups()] on it raises
    [AttributeError], and [get_ip] stops there: nothing is logged, no
    sample is taken, and the test [vm_mac_address is None] is not
    reached. *)
Theorem get_ip_without_mac_raises (self : VMMLibvirt) (force_refresh : bool)
    (s : State Env) :
  connected self -> defined host self s ->
  force_refresh = true \/ _ip s = None ->
  Re.search Re.mac_xml (dom_XMLDesc host (env s) (vm_vmid (vminst self))) = None ->
  get_ip host self force_refresh s = (Py.Raise Py.AttributeError, s).
Proof.
  intros Hc Hd Hfresh Hmac. unfold get_ip.
  unfold bind at 1. unfold get__ip at 1.
  assert (Hgate : negb force_refresh && negb (Py.is_None (_ip s)) = false).
  { destruct Hfresh as [H | H]; rewrite H; [reflexivity |].
    apply andb_false_r. }
  rewrite Hgate. unfold bind at 1. rewrite (_get_domain_found host self s Hc Hd).
  unfold bind at 1. unfold get_env at 1. unfold bind at 1. rewrite Hmac.
  reflexivity.
Qed.

(** C2, as the code has it. A forced refresh with an IP already cached
    keeps the cached value in [self._ip] while it polls, so the loop
    stops after its first sample: the result is the IP of that sample
    when it has a matching line, and the old cached value when it has
    none. *)
Theorem get_ip_force_refresh_takes_one_sample (self : VMMLibvirt) (s : State Env)
    (m : Re.Match) (old : string) :
  connected self -> defined host self s ->
  _ip s = Some old ->
  Re.search Re.mac_xml (dom_XMLDesc host (env s) (vm_vmid (vminst self))) = Some m ->
  let ip := match table_ip (Re.group1 m) (sample host (env s)) with
            | Some i => i
            | None => old
            end in
  get_ip host self true s
  = (Py.Ok (Some ip),
     mkState (snd (arp_a host (env s))) (EvArp :: trace s) (Some ip)).
Proof.
  intros Hc Hd Hip Hmac ip.
  rewrite (get_ip_polls self true s m Hc Hd (or_introl eq_refl) Hmac).
  change ARP_INTERVAL with (S 119).
  rewrite (poll_cached (Re.group1 m) old 119 s Hip). reflexivity.
Qed.

(** C9. With nothing cached or a forced refresh, and a MAC [v] in the
    domain description: [get_ip] returns; it takes at most 120 samples
    and sleeps at most 120 seconds. Starting with nothing cached, if
    the first [k < 120] samples have no line for [v] and the next one
    gives [ip], the result is [ip] after [k + 1] samples and [k]
    one-second sleeps; if none of 120 samples has a line for [v], the
    result is [None] after 120 samples and 120 one-second sleeps. *)
Theorem get_ip_polling_is_bounded (self : VMMLibvirt) (force_refresh : bool)
    (s : State Env) (m : Re.Match) :
  connected self -> defined host self s ->
  force_refresh = true \/ _ip s = None ->
  Re.search Re.mac_xml (dom_XMLDesc host (env s) (vm_vmid (vminst self))) = Some m ->
  let v := Re.group1 m in
  let run := get_ip host self force_refresh s in
  (exists r, fst run = Py.Ok r)
  /\ (samples (trace (snd run)) <= 120 + samples (trace s))%nat
  /\ slept (trace (snd run)) <= slept (trace s) + 120
  /\ (forall k ip,
        _ip s = None -> (k < 120)%nat ->
        all_miss host v k (env s) ->
        table_ip v (sample host (round host k (env s))) = Some ip ->
        run = (Py.Ok (Some ip),
               mkState (snd (arp_a host (round host k (env s))))
                 (EvArp :: missed k (trace s)) (Some ip)))
  /\ (_ip s = None -> all_miss host v 120 (env s) ->
      run = (Py.Ok None,
             mkState (round host 120 (env s)) (missed 120 (trace s)) None)).
Proof.
  intros Hc Hd Hfresh Hmac v run. subst run.
  rewrite (get_ip_polls self force_refresh s m Hc Hd Hfresh Hmac). fold v.
  cbn [fst snd].
  pose proof (poll_bounded v ARP_INTERVAL s) as (_ & Hsamples & Hslept).
  split; [eexists; reflexivity |].
  split; [exact Hsamples |].
  split; [change (Z.of_nat ARP_INTERVAL) with 120 in Hslept; lia |].
  split.
  - intros k ip Hip Hk Hmiss Hhit.
    rewrite (poll_first_hit v ip k ARP_INTERVAL s Hip Hk Hmiss Hhit).
    reflexivity.
  - intros Hip Hmiss.
    rewrite (poll_all_miss v ARP_INTERVAL s Hip Hmiss). reflexivity.
Qed.

End IpDiscovery.

(** [get_ip] on the simulated host: the table has the guest's line. *)
Example get_ip_finds_guest_line :
  fst (get_ip Sim.host Sim.self false
         (Sim.state0 (Sim.with_arp [[Sim.arp_other; Sim.arp_guest]] (Sim.env0 1))
            None))
  = Py.Ok (Some "192.0.2.10").
Proof. vm_compute. reflexivity. Qed.

(** [get_ip] on the simulated host: no line for the guest in any
    sample; 120 samples, 120 seconds, no result. *)
Example get_ip_exhausts_the_bound :
  let run := get_ip Sim.host Sim.self false
               (Sim.state0 (Sim.with_arp [[Sim.arp_other]] (Sim.env0 1)) None) in
  fst run = Py.Ok None
  /\ samples (trace (snd run)) = 120%nat
  /\ slept (trace (snd run)) = 120.
Proof. vm_compute. repeat split. Qed.

(** C1 on the simulated host: a domain description without interface. *)
Lemma get_ip_without_mac_raises_witness :
  let s := Sim.state0 (Sim.with_xmldesc "<domain type='kvm'><name>vm1</name></domain>"
                         (Sim.env0 1)) None in
  connected Sim.self
  /\ defined Sim.host Sim.self s
  /\ get_ip Sim.host Sim.self false s = (Py.Raise Py.AttributeError, s).
Proof.
  intros s.
  assert (Hc : connected Sim.self) by discriminate.
  assert (Hd : defined Sim.host Sim.self s) by reflexivity.
  split; [exact Hc |]. split; [exact Hd |].
  apply (get_ip_without_mac_raises Sim.host Sim.self false s Hc Hd).
  - right. reflexivity.
  - vm_compute. reflexivity.
Defined.

(** C2 on the simulated host: [192.0.2.99] is cached, the first sample
    has no line for the guest and the second would give [192.0.2.10];
    the forced refresh takes one sample and returns [192.0.2.99]. *)
Lemma get_ip_force_refresh_takes_one_sample_witness :
  let s := Sim.state0 (Sim.with_arp [[Sim.arp_other]; [Sim.arp_guest]] (Sim.env0 1))
             (Some "192.0.2.99") in
  connected Sim.self
  /\ defined Sim.host Sim.self s
  /\ fst (get_ip Sim.host Sim.self true s) = Py.Ok (Some "192.0.2.99")
  /\ trace (snd (get_ip Sim.host Sim.self true s)) = [EvArp].
Proof.
  intros s.
  assert (Hc : connected Sim.self) by discriminate.
  assert (Hd : defined Sim.host Sim.self s) by reflexivity.
  split; [exact Hc |]. split; [exact Hd |].
  rewrite (get_ip_force_refresh_takes_one_sample Sim.host Sim.self s
             (Re.MkMatch "52:54:00:12:34:56") "192.0.2.99" Hc Hd eq_refl);
    [| vm_compute; reflexivity].
  split; vm_compute; reflexivity.
Defined.

(** C9 on the simulated host: the guest's line appears in the second
    sample; two samples, one second slept. *)
Lemma get_ip_polling_is_bounded_witness :
  let s := Sim.state0 (Sim.with_arp [[Sim.arp_other]; [Sim.arp_guest]] (Sim.env0 1))
             None in
  connected Sim.self
  /\ defined Sim.host Sim.self s
  /\ fst (get_ip Sim.host Sim.self false s) = Py.Ok (Some "192.0.2.10")
  /\ trace (snd (get_ip Sim.host Sim.self false s)) = [EvArp; EvSleep 1; EvArp].
Proof.
  intros s.
  assert (Hc : connected Sim.self) by discriminate.
  assert (Hd : defined Sim.host Sim.self s) by reflexivity.
  split; [exact Hc |]. split; [exact Hd |].
  destruct (get_ip_polling_is_bounded Sim.host Sim.self false s
              (Re.MkMatch "52:54:00:12:34:56") Hc Hd (or_intror eq_refl))
    as (_ & _ & _ & Hhit & _); [vm_compute; reflexivity |].
  rewrite (Hhit 1%nat "192.0.2.10"); [split; reflexivity | reflexivity | lia | |].
  - intros k Hk. assert (k = O) by lia. subst k. vm_compute. reflexivity.
  - vm_compute. reflexivity.
Defined.

(** ** Guest-agent relay *)

Section GuestAgent.
Context {Env : Type} (host : Host Env) (lib : PyLib).

(** One agent round trip that the host answers. *)
Lemma _qemu_agent_command_run (self : VMMLibvirt) (cmd : string) (s : State Env)
    (response : option string) (e' : Env) :
  connected self -> defined host self s ->
  qemuAgentCommand host (vm_vmid (vminst self)) cmd 30 0 (env s) = (response, e') ->
  _qemu_agent_command host self cmd s
  = (match response with
     | Some r => Py.Ok r
     | None => Py.Raise Py.libvirtError
     end,
     mkState e' (EvAgent cmd :: trace s) (_ip s)).
Proof.
  intros Hc Hd Hcmd. unfold _qemu_agent_command, bind at 1.
  rewrite (_get_domain_found host self s Hc Hd). mrun. rewrite Hcmd.
  destruct response; reflexivity.
Qed.

(** C4, as the code has it. In [qemu_agent_file_read], once the open
    step has passed (its response contains [return] and is an object
    with a [return] member), the assertion after the read command looks
    at the open response again: whatever the read response [content]
    is, also without [return], the close command is sent; and when the
    close response contains [return], the outcome is that of decoding
    [content], so a failure shows there, as an exception of
    [json.loads] or of the indexing, and not as an [AssertionError] of
    the read step. *)
Theorem file_read_does_not_check_read_response (self : VMMLibvirt) (path : string)
    (s : State Env) (opened content closed : string)
    (members : list (string * json)) (fd : json) (e1 e2 e3 : Env) :
  let dom := vm_vmid (vminst self) in
  let open_cmd := cmd_file_open path "r" in
  let read_cmd := cmd_file_read (format_s lib fd) in
  let close_cmd := cmd_file_close_r (format_s lib fd) in
  connected self ->
  lookupByUUIDString host (env s) dom = true ->
  qemuAgentCommand host dom open_cmd 30 0 (env s) = (Some opened, e1) ->
  Py.str_in "return" opened = true ->
  json_loads lib opened = Some (JObj members) ->
  dict_get members "return" = Some fd ->
  lookupByUUIDString host e1 dom = true ->
  qemuAgentCommand host dom read_cmd 30 0 e1 = (Some content, e2) ->
  lookupByUUIDString host e2 dom = true ->
  qemuAgentCommand host dom close_cmd 30 0 e2 = (Some closed, e3) ->
  Py.str_in "return" closed = true ->
  qemu_agent_file_read host lib self path s
  = (j <- loads lib content ;; r <- getitem j "return" ;; getitem r "buf-b64")
      (mkState e3
         (EvAgent close_cmd :: EvAgent read_cmd :: EvAgent open_cmd :: trace s)
         (_ip s)).
Proof.
  intros dom open_cmd read_cmd close_cmd Hc Hd0 Hopen Hret Hjson Hfd Hd1 Hread
    Hd2 Hclose Hret3.
  subst dom open_cmd read_cmd close_cmd.
  unfold qemu_agent_file_read.
  unfold bind at 1.
  rewrite (_qemu_agent_command_run self _ s (Some opened) e1 Hc Hd0 Hopen).
  unfold bind at 1. rewrite Hret. unfold assert at 1, ret at 1.
  unfold bind at 1. unfold loads at 1. rewrite Hjson. unfold ret at 1.
  unfold bind at 1. unfold getitem at 1. rewrite Hfd. unfold ret at 1.
  unfold bind at 1.
  rewrite (_qemu_agent_command_run self _
             (mkState e1 (EvAgent (cmd_file_open path "r") :: trace s) (_ip s))
             (Some content) e2 Hc Hd1 Hread).
  cbn [env trace _ip].
  unfold bind at 1. unfold assert at 1, ret at 1.
  unfold bind at 1.
  rewrite (_qemu_agent_command_run self _
             (mkState e2
                (EvAgent (cmd_file_read (format_s lib fd))
                 :: EvAgent (cmd_file_open path "r") :: trace s) (_ip s))
             (Some closed) e3 Hc Hd2 Hclose).
  cbn [env trace _ip].
  unfold bind at 1. rewrite Hret3. unfold assert at 1, ret at 1.
  reflexivity.
Qed.

End GuestAgent.

(** C4 on the simulated host: the read response is an error object
    without [return]; all three commands are sent and the call ends in
    the [KeyError] of [j['return']]. *)
Lemma file_read_does_not_check_read_response_witness :
  connected Sim.self
  /\ Py.str_in "return" Sim.read_error = false
  /\ fst (qemu_agent_file_read Sim.host Sim.lib Sim.self "/etc/hostname"
            Sim.failing_read_state)
     = Py.Raise Py.KeyError
  /\ trace (snd (qemu_agent_file_read Sim.host Sim.lib Sim.self "/etc/hostname"
                   Sim.failing_read_state))
     = [EvAgent (cmd_file_close_r "1000"); EvAgent (cmd_file_read "1000");
        EvAgent (cmd_file_open "/etc/hostname" "r")].
Proof.
  assert (Hc : connected Sim.self) by discriminate.
  split; [exact Hc |]. split; [vm_compute; reflexivity |].
  rewrite (file_read_does_not_check_read_response Sim.host Sim.lib Sim.self
             "/etc/hostname" Sim.failing_read_state
             Sim.open_response Sim.read_error Sim.close_response
             [("return", JInt 1000)] (JInt 1000)
             (Sim.with_agent [Some Sim.read_error; Some Sim.close_response]
                (Sim.env0 1))
             (Sim.with_agent [Some Sim.close_response] (Sim.env0 1))
             (Sim.with_agent [] (Sim.env0 1))
             Hc);
    try (vm_compute; reflexivity).
  split; vm_compute; reflexivity.
Defined.

(** The write-then-read scenario of the relay on the simulated host:
    a well-formed read response gives its [buf-b64] member. *)
Example file_read_returns_buffer :
  fst (qemu_agent_file_read Sim.host Sim.lib Sim.self "/etc/hostname"
         (Sim.state0
            (Sim.with_agent [Some Sim.open_response; Some Sim.read_response;
                             Some Sim.close_response] (Sim.env0 1))
            None))
  = Py.Ok (JStr "aGVsbG8=").
Proof. vm_compute. reflexivity. Qed.

(** The sibling [qemu_agent_file_write] does check each response: a
    write response without [return] fails the assertion of the write
    step, before the close command. *)
Example file_write_checks_write_response :
  let run := qemu_agent_file_write Sim.host Sim.lib Sim.self "/etc/hostname"
               "aGVsbG8=" Sim.failing_read_state in
  fst run = Py.Raise Py.AssertionError
  /\ trace (snd run)
     = [EvAgent (cmd_file_write "1000" "aGVsbG8=");
        EvAgent (cmd_file_open "/etc/hostname" "w+")].
Proof. vm_compute. split; reflexivity. Qed.

(** * Further properties *)

(** ** Lifecycle: missing domain, guards and composition *)

Section LifecycleMore.
Context {Env : Type} (host : Host Env).

(** X1. When the domain is not registered, every operation that needs
    it raises [libvirtError] from the lookup: no domain call and no
    agent command is issued, nothing is logged, and the backend is as
    before. The error is not caught (only [destroy] catches it). *)
Theorem operations_raise_when_domain_is_missing (self : VMMLibvirt) (s : State Env) :
  connected self ->
  lookupByUUIDString host (env s) (vm_vmid (vminst self)) = false ->
  let gone {A : Type} : Py.result A * State Env := (Py.Raise Py.libvirtError, s) in
  start host self s = gone
  /\ suspend host self s = gone
  /\ resume host self s = gone
  /\ reboot host self s = gone
  /\ shutdown host self s = gone
  /\ is_running host self s = gone
  /\ is_shutoff host self s = gone
  /\ state host self s = gone
  /\ (forall cmd, _qemu_agent_command host self cmd s = gone)
  /\ (_ip s = None -> get_ip host self false s = gone)
  /\ get_ip host self true s = gone.
Proof.
  intros Hc Hd gone. subst gone.
  pose proof (_get_domain_missing host self s Hc Hd) as Hdom.
  assert (Hr : is_running host self s = (Py.Raise Py.libvirtError, s))
    by (unfold is_running, bind; rewrite Hdom; reflexivity).
  assert (Hs : is_shutoff host self s = (Py.Raise Py.libvirtError, s))
    by (unfold is_shutoff, bind; rewrite Hdom; reflexivity).
  repeat split; try assumption.
  - unfold start, bind. rewrite Hs. reflexivity.
  - unfold suspend, bind. rewrite Hdom. reflexivity.
  - unfold resume, bind. rewrite Hdom. reflexivity.
  - unfold reboot, bind. rewrite Hdom. reflexivity.
  - unfold shutdown, bind. rewrite Hdom. reflexivity.
  - unfold state, bind. rewrite Hdom. reflexivity.
  - intros cmd. unfold _qemu_agent_command, bind. rewrite Hdom. reflexivity.
  - intros Hip. unfold get_ip. unfold bind at 1. unfold get__ip at 1.
    rewrite Hip. cbn [negb andb Py.is_None]. unfold bind at 1.
    rewrite Hdom. reflexivity.
  - unfold get_ip. unfold bind at 1. unfold get__ip at 1.
    cbn [negb andb]. unfold bind at 1. rewrite Hdom. reflexivity.
Qed.

Lemma suspend_run (self : VMMLibvirt) (s : State Env) :
  connected self -> defined host self s ->
  suspend host self s
  = if dom_state host (env s) (vm_vmid (vminst self)) =? VIR_DOMAIN_RUNNING
    then dom_do host (vm_vmid (vminst self)) dom_suspend s
    else (Py.Ok tt, s).
Proof.
  intros Hc Hd. unfold suspend, bind.
  rewrite (_get_domain_found host self s Hc Hd), (is_running_found host self s Hc Hd).
  destruct (dom_state host (env s) (vm_vmid (vminst self)) =? VIR_DOMAIN_RUNNING);
    reflexivity.
Qed.

Lemma start_run (self : VMMLibvirt) (s : State Env) :
  connected self -> defined host self s ->
  start host self s
  = if dom_state host (env s) (vm_vmid (vminst self)) =? VIR_DOMAIN_SHUTOFF
    then dom_do host (vm_vmid (vminst self)) dom_create s
    else resume host self s.
Proof.
  intros Hc Hd. unfold start, bind. rewrite (is_shutoff_found host self s Hc Hd).
  destruct (dom_state host (env s) (vm_vmid (vminst self)) =? VIR_DOMAIN_SHUTOFF);
    [| reflexivity].
  rewrite (_get_domain_found host self s Hc Hd). reflexivity.
Qed.

(** X2. [suspend()] is guarded: on a domain that is not running it
    calls nothing and returns. Hence two [suspend()] in a row, on a
    running domain that the host pauses, issue one [dom.suspend()]: the
    second call is a no-op. *)
Theorem suspend_twice_suspends_once (self : VMMLibvirt) (s : State Env) :
  connected self -> defined host self s ->
  let dom := vm_vmid (vminst self) in
  (dom_state host (env s) dom <> VIR_DOMAIN_RUNNING ->
   suspend host self s = (Py.Ok tt, s))
  /\ (forall e1,
        dom_state host (env s) dom = VIR_DOMAIN_RUNNING ->
        dom_call host dom_suspend dom (env s) = Some e1 ->
        lookupByUUIDString host e1 dom = true ->
        dom_state host e1 dom <> VIR_DOMAIN_RUNNING ->
        (suspend host self ;; suspend host self) s
        = (Py.Ok tt, mkState e1 (EvDom dom dom_suspend :: trace s) (_ip s))).
Proof.
  intros Hc Hd dom. split.
  - intros Hst. rewrite (suspend_run self s Hc Hd). fold dom.
    apply Z.eqb_neq in Hst. rewrite Hst. reflexivity.
  - intros e1 Hst Hcall Hd1 Hst1. unfold bind.
    rewrite (suspend_run self s Hc Hd). fold dom.
    apply Z.eqb_eq in Hst. rewrite Hst, dom_do_run, Hcall.
    rewrite suspend_run; [| exact Hc | exact Hd1]. cbn [env]. fold dom.
    apply Z.eqb_neq in Hst1. rewrite Hst1. reflexivity.
Qed.

(** X3. [start()] on a running domain calls nothing and returns. Hence
    two [start()] in a row, on a shut-off domain that the host powers
    on, issue one [dom.create()] and no [dom.resume()]. *)
Theorem start_twice_creates_once (self : VMMLibvirt) (s : State Env) :
  connected self -> defined host self s ->
  let dom := vm_vmid (vminst self) in
  (dom_state host (env s) dom = VIR_DOMAIN_RUNNING ->
   start host self s = (Py.Ok tt, s))
  /\ (forall e1,
        dom_state host (env s) dom = VIR_DOMAIN_SHUTOFF ->
        dom_call host dom_create dom (env s) = Some e1 ->
        lookupByUUIDString host e1 dom = true ->
        dom_state host e1 dom = VIR_DOMAIN_RUNNING ->
        (start host self ;; start host self) s
        = (Py.Ok tt, mkState e1 (EvDom dom dom_create :: trace s) (_ip s))).
Proof.
  intros Hc Hd dom.
  assert (Hrunning : forall s0,
             defined host self s0 ->
             dom_state host (env s0) dom = VIR_DOMAIN_RUNNING ->
             start host self s0 = (Py.Ok tt, s0)).
  { intros s0 Hd0 Hst. rewrite (start_run self s0 Hc Hd0). fold dom.
    rewrite Hst. cbn [Z.eqb VIR_DOMAIN_RUNNING VIR_DOMAIN_SHUTOFF Pos.eqb].
    rewrite (resume_run host self s0 Hc Hd0). fold dom. rewrite Hst. reflexivity. }
  split.
  - apply Hrunning. exact Hd.
  - intros e1 Hst Hcall Hd1 Hst1. unfold bind.
    rewrite (start_run self s Hc Hd). fold dom.
    apply Z.eqb_eq in Hst. rewrite Hst, dom_do_run, Hcall.
    apply Hrunning; [exact Hd1 | exact Hst1].
Qed.

(** X4. [reboot()] and [shutdown()] have no guard: on a registered
    domain, in whatever power state, the request is sent to the host,
    and the host's refusal reaches the caller as [libvirtError]. *)
Theorem reboot_and_shutdown_are_unguarded (self : VMMLibvirt) (s : State Env) :
  connected self -> defined host self s ->
  let dom := vm_vmid (vminst self) in
  trace (snd (reboot host self s)) = EvDom dom dom_reboot :: trace s
  /\ trace (snd (shutdown host self s)) = EvDom dom dom_shutdown :: trace s
  /\ (fst (reboot host self s) = Py.Raise Py.libvirtError
      <-> dom_call host dom_reboot dom (env s) = None)
  /\ (fst (shutdown host self s) = Py.Raise Py.libvirtError
      <-> dom_call host dom_shutdown dom (env s) = None).
Proof.
  intros Hc Hd dom.
  assert (Hr : reboot host self s = dom_do host dom dom_reboot s)
    by (unfold reboot, bind; rewrite (_get_domain_found host self s Hc Hd);
        reflexivity).
  assert (Hs : shutdown host self s = dom_do host dom dom_shutdown s)
    by (unfold shutdown, bind; rewrite (_get_domain_found host self s Hc Hd);
        reflexivity).
  rewrite Hr, Hs, !dom_do_run.
  destruct (dom_call host dom_reboot dom (env s));
    destruct (dom_call host dom_shutdown dom (env s));
    cbn [fst snd trace];
    repeat split; intros H; first [ reflexivity | discriminate H ].
Qed.

(** X5. The path of [destroy()] when the host accepts every request:
    hard power-off, then deregistration with the NVRAM flag, then
    removal of the document's file, in this order and with no warning. *)
Theorem destroy_success_path (self : VMMLibvirt) (s : State Env) (e1 e2 e3 : Env) :
  connected self -> defined host self s ->
  let dom := vm_vmid (vminst self) in
  let path := VirtXml.filepath (_xml self) in
  dom_call host dom_destroy dom (env s) = Some e1 ->
  dom_call host (dom_undefineFlags VIR_DOMAIN_UNDEFINE_NVRAM) dom e1 = Some e2 ->
  os_path_exists host e2 path = true ->
  os_remove host path e2 = Some e3 ->
  destroy host self s
  = (Py.Ok tt,
     mkState e3
       (EvRemove path
        :: EvDom dom (dom_undefineFlags VIR_DOMAIN_UNDEFINE_NVRAM)
        :: EvDom dom dom_destroy :: trace s)
       (_ip s)).
Proof.
  intros Hc Hd dom path H1 H2 H3 H4.
  rewrite (destroy_run host self s Hc), (destroy_domain_run host self s Hc).
  fold dom. unfold defined in Hd. fold dom in Hd. rewrite Hd, H1, H2.
  cbn [snd]. rewrite destroy_xml_file_run. fold path. cbn [env trace _ip].
  rewrite H3, H4. reflexivity.
Qed.

End LifecycleMore.

(** X1 on the simulated host without the domain. *)
Lemma operations_raise_when_domain_is_missing_witness :
  let s := Sim.state0 (Sim.with_domain None (Sim.env0 1)) None in
  connected Sim.self
  /\ lookupByUUIDString Sim.host (env s) (vm_vmid (vminst Sim.self)) = false
  /\ start Sim.host Sim.self s = (Py.Raise Py.libvirtError, s)
  /\ state Sim.host Sim.self s = (Py.Raise Py.libvirtError, s)
  /\ get_ip Sim.host Sim.self true s = (Py.Raise Py.libvirtError, s).
Proof.
  intros s.
  assert (Hc : connected Sim.self) by discriminate.
  split; [exact Hc |]. split; [reflexivity |].
  destruct (operations_raise_when_domain_is_missing Sim.host Sim.self s Hc eq_refl)
    as (H1 & _ & _ & _ & _ & _ & _ & H8 & _ & _ & H11).
  split; [exact H1 |]. split; [exact H8 | exact H11].
Defined.

(** X2 on the simulated host: a running domain suspended twice. *)
Lemma suspend_twice_suspends_once_witness :
  let s := Sim.state0 (Sim.env0 1) None in
  connected Sim.self
  /\ defined Sim.host Sim.self s
  /\ (suspend Sim.host Sim.self ;; suspend Sim.host Sim.self) s
     = (Py.Ok tt,
        mkState (Sim.with_domain (Some (Sim.uuid, VIR_DOMAIN_PAUSED)) (Sim.env0 1))
          [EvDom Sim.uuid dom_suspend] None).
Proof.
  intros s.
  assert (Hc : connected Sim.self) by discriminate.
  assert (Hd : defined Sim.host Sim.self s) by reflexivity.
  split; [exact Hc |]. split; [exact Hd |].
  destruct (suspend_twice_suspends_once Sim.host Sim.self s Hc Hd) as [_ Htwice].
  apply Htwice; first [ reflexivity | discriminate ].
Defined.

(** X3 on the simulated host: a shut-off domain started twice. *)
Lemma start_twice_creates_once_witness :
  let s := Sim.state0 (Sim.env0 5) None in
  connected Sim.self
  /\ defined Sim.host Sim.self s
  /\ (start Sim.host Sim.self ;; start Sim.host Sim.self) s
     = (Py.Ok tt,
        mkState (Sim.with_domain (Some (Sim.uuid, VIR_DOMAIN_RUNNING)) (Sim.env0 5))
          [EvDom Sim.uuid dom_create] None).
Proof.
  intros s.
  assert (Hc : connected Sim.self) by discriminate.
  assert (Hd : defined Sim.host Sim.self s) by reflexivity.
  split; [exact Hc |]. split; [exact Hd |].
  destruct (start_twice_creates_once Sim.host Sim.self s Hc Hd) as [_ Htwice].
  apply Htwice; reflexivity.
Defined.

(** X4 on the simulated host: [reboot()] of a paused domain is sent and
    refused. *)
Lemma reboot_and_shutdown_are_unguarded_witness :
  let s := Sim.state0 (Sim.env0 3) None in
  connected Sim.self
  /\ defined Sim.host Sim.self s
  /\ trace (snd (reboot Sim.host Sim.self s)) = [EvDom Sim.uuid dom_reboot]
  /\ fst (reboot Sim.host Sim.self s) = Py.Raise Py.libvirtError.
Proof.
  intros s.
  assert (Hc : connected Sim.self) by discriminate.
  assert (Hd : defined Sim.host Sim.self s) by reflexivity.
  split; [exact Hc |]. split; [exact Hd |].
  destruct (reboot_and_shutdown_are_unguarded Sim.host Sim.self s Hc Hd)
    as (Htrace & _ & Hraise & _).
  split; [exact Htrace | apply Hraise; reflexivity].
Defined.

(** X5 on the simulated host: a running domain with its file. *)
Lemma destroy_success_path_witness :
  let s := Sim.state0 (Sim.env0 1) None in
  connected Sim.self
  /\ defined Sim.host Sim.self s
  /\ trace (snd (destroy Sim.host Sim.self s))
     = [EvRemove "vm1.xml";
        EvDom Sim.uuid (dom_undefineFlags VIR_DOMAIN_UNDEFINE_NVRAM);
        EvDom Sim.uuid dom_destroy]
  /\ Sim.files (env (snd (destroy Sim.host Sim.self s))) = [].
Proof.
  intros s.
  assert (Hc : connected Sim.self) by discriminate.
  assert (Hd : defined Sim.host Sim.self s) by reflexivity.
  split; [exact Hc |]. split; [exact Hd |].
  rewrite (destroy_success_path Sim.host Sim.self s
             (Sim.with_domain (Some (Sim.uuid, VIR_DOMAIN_SHUTOFF)) (Sim.env0 1))
             (Sim.with_domain None (Sim.env0 1))
             (Sim.mk true None (Sim.xmldesc (Sim.env0 1)) [] [] [] 0 2000000)
             Hc Hd eq_refl eq_refl eq_refl eq_refl).
  split; reflexivity.
Defined.

(** ** Construction and registration *)

Section ConstructionMore.
Context {Env : Type} (host : Host Env) (param : VmParam) (reg : Registrar Env).

(** X6. When libvirt does not accept the connection, construction
    stops with [AssertionError] after logging the error: no document is
    built and no copy of the OVMF variables is made. *)
Theorem init_aborts_without_connection (vminst : VMGuest) (s : State Env) :
  libvirt_open host (env s) = false ->
  __init__ host param vminst s
  = (Py.Raise Py.AssertionError,
     mkState (env s)
       (EvError "Fail to connect libvirt, please make sure current user in libvirt group"
        :: trace s)
       (_ip s)).
Proof.
  intros Hopen. unfold __init__, _connect_virt. mrun. rewrite Hopen. reflexivity.
Qed.

(** X7. The firmware loader and the CPU feature string by flavor:
    legacy and SGX boot the legacy BIOS, UEFI and TD the OVMF code;
    legacy and UEFI get the baseline features, SGX the enclave flag
    set. *)
Theorem loader_and_cpu_params_by_flavor (vminst : VMGuest) (s : State Env) :
  exists xml s',
    _prepare_domain_xml host param vminst s = (Py.Ok xml, s')
    /\ VirtXml.loader xml
       = Some (match vm_vmtype vminst with
               | VM_TYPE_LEGACY | VM_TYPE_SGX => BIOS_BINARY_LEGACY param
               | VM_TYPE_EFI | VM_TYPE_TD => BIOS_OVMF_CODE param
               end)
    /\ (vm_vmtype vminst = VM_TYPE_LEGACY \/ vm_vmtype vminst = VM_TYPE_EFI ->
        VirtXml.cpu_params xml = Some "host,-kvm-steal-time,pmu=off")
    /\ (vm_vmtype vminst = VM_TYPE_SGX ->
        VirtXml.cpu_params xml
        = Some ("host,host-phys-bits,+sgx,+sgx-debug,+sgx-exinfo,+sgx-kss,"
                ++ "+sgx-mode64,+sgx-provisionkey,+sgx-tokenkey,+sgx1,+sgx2,+sgxlc")).
Proof.
  run_prepare.
  destruct (vm_vmtype vminst); cbn [env];
    try destruct (get_cpu_base_freq host _ <? 1000000);
    destruct (String.eqb (vm_boot vminst) (BOOT_TYPE_GRUB param));
    (do 2 eexists; split; [reflexivity |]);
    (split; [reflexivity |]);
    (split; [intros [H | H] | intros H]; first [ reflexivity | discriminate H ]).
Qed.


(** X9. [create()] on a backend that holds a connection writes the
    document, registers it and powers the new domain on, whatever
    [stop_at_begining] is. When the registration is refused the error
    reaches the caller: the document has been written, and no domain is
    powered on. When it is accepted, [dom.create()] is called once on
    the registered domain, and its refusal reaches the caller too. *)
Theorem create_registers_then_powers_on (self : VMMLibvirt)
    (stop_at_begining : bool) (s : State Env) :
  connected self ->
  let written := xml_dump reg (_xml self) (env s) in
  (defineXML reg (xml_tostring reg (_xml self)) written = None ->
   create host reg self stop_at_begining s
   = (Py.Raise Py.libvirtError, mkState written (trace s) (_ip s)))
  /\ (forall dom e1,
        defineXML reg (xml_tostring reg (_xml self)) written = Some (dom, e1) ->
        create host reg self stop_at_begining s
        = (match dom_call host dom_create dom e1 with
           | Some e2 => (Py.Ok tt, mkState e2 (EvDom dom dom_create :: trace s) (_ip s))
           | None => (Py.Raise Py.libvirtError,
                      mkState e1 (EvDom dom dom_create :: trace s) (_ip s))
           end)).
Proof.
  intros Hc written. subst written. unfold connected in Hc.
  unfold create. destruct (_virt_conn self); [| contradiction].
  cbn [Py.is_None negb]. split.
  - intros Hdef. mrun. rewrite Hdef. reflexivity.
  - intros dom e1 Hdef. mrun. rewrite Hdef.
    unfold dom_do. mrun.
    destruct (dom_call host dom_create dom e1); reflexivity.
Qed.

End ConstructionMore.

(** X6 on the simulated host with the daemon down. *)
Lemma init_aborts_without_connection_witness :
  let down := Sim.mk false None "" [] [] [] 0 2000000 in
  libvirt_open Sim.host (env (Sim.state0 down None)) = false
  /\ fst (__init__ Sim.host Sim.param (Sim.guest VM_TYPE_EFI "grub")
            (Sim.state0 down None))
     = Py.Raise Py.AssertionError
  /\ trace (snd (__init__ Sim.host Sim.param (Sim.guest VM_TYPE_EFI "grub")
                   (Sim.state0 down None)))
     = [EvError "Fail to connect libvirt, please make sure current user in libvirt group"].
Proof.
  intros down. split; [reflexivity |].
  rewrite (init_aborts_without_connection Sim.host Sim.param
             (Sim.guest VM_TYPE_EFI "grub") (Sim.state0 down None) eq_refl).
  split; reflexivity.
Defined.

(** X9 on the simulated host: no domain registered yet. *)
Lemma create_registers_then_powers_on_witness :
  let s := Sim.state0 (Sim.mk true None "" [] [] [] 0 2000000) None in
  connected Sim.self
  /\ fst (create Sim.host SimReg.reg Sim.self true s) = Py.Ok tt
  /\ trace (snd (create Sim.host SimReg.reg Sim.self true s))
     = [EvDom Sim.uuid dom_create]
  /\ Sim.domain (env (snd (create Sim.host SimReg.reg Sim.self true s)))
     = Some (Sim.uuid, VIR_DOMAIN_RUNNING)
  /\ Sim.files (env (snd (create Sim.host SimReg.reg Sim.self true s)))
     = ["vm1.xml"].
Proof.
  intros s.
  assert (Hc : connected Sim.self) by discriminate.
  split; [exact Hc |].
  destruct (create_registers_then_powers_on Sim.host SimReg.reg Sim.self true s Hc)
    as [_ Hdef].
  rewrite (Hdef Sim.uuid
             (Sim.with_domain (Some (Sim.uuid, VIR_DOMAIN_SHUTOFF))
                (SimReg.dump (_xml Sim.self) (env s))) eq_refl).
  repeat split.
Defined.

(** ** What the patterns of [get_ip] match *)

Lemma span_le_limit (p : ascii -> bool) (h : nat) (s : list ascii) :
  (Re.span p (Some h) s <= h)%nat.
Proof.
  revert h. induction s as [| c s IH]; intros h.
  - destruct h; cbn; lia.
  - destruct h as [| h]; cbn [Re.span]; [lia |].
    destruct (p c); [| lia]. cbn [option_map Nat.pred]. specialize (IH h). lia.
Qed.

Lemma span_le_length (p : ascii -> bool) (limit : option nat) (s : list ascii) :
  (Re.span p limit s <= length s)%nat.
Proof.
  revert limit. induction s as [| c s IH]; intros limit.
  - destruct limit as [[| h] |]; cbn; lia.
  - destruct limit as [[| h] |]; cbn [Re.span length]; try lia;
      (destruct (p c); [| lia]);
      match goal with |- (S (Re.span p ?l s) <= _)%nat => specialize (IH l) end;
      lia.
Qed.

Lemma span_all (p : ascii -> bool) (limit : option nat) (s : list ascii) (n : nat) :
  (n <= Re.span p limit s)%nat -> forallb p (firstn n s) = true.
Proof.
  revert limit n. induction s as [| c s IH]; intros limit n Hn.
  - destruct n; reflexivity.
  - destruct n as [| n]; [reflexivity |].
    destruct limit as [[| h] |]; cbn [Re.span] in Hn; try lia;
      (destruct (p c) eqn:Hc; [| lia]);
      cbn [firstn forallb]; rewrite Hc; cbn [andb];
      match type of Hn with
      | (_ <= S (Re.span p ?l s))%nat => apply (IH l)
      end; lia.
Qed.

(** Soundness of the matcher at a position: each atom took a piece
    that fits it, and the pieces are a prefix of the text. *)
Lemma match_here_sound (r : list Re.atom) (s : list ascii)
    (g : list (list ascii)) :
  Re.match_here r s = Some g ->
  Forall2 fits r g /\ exists rest, s = (concat g ++ rest)%list.
Proof.
  revert s g. induction r as [| a r IH]; intros s g H.
  - cbn in H. injection H as <-. split; [constructor | exists s; reflexivity].
  - cbn [Re.match_here] in H.
    assert (Hb : (Re.span (Re.cls a) (Re.hi a) s <= Re.span (Re.cls a) (Re.hi a) s)%nat)
      by lia.
    revert H Hb. generalize (Re.span (Re.cls a) (Re.hi a) s) at 1 2.
    intros n. induction n as [| n IHn]; intros H Hb.
    + destruct (Re.lo a <=? 0)%nat eqn:Hlo; [| discriminate H].
      destruct (Re.match_here r (skipn 0 s)) as [g0 |] eqn:Hrest;
        cbn [option_map] in H; [| discriminate H].
      injection H as <-. destruct (IH _ _ Hrest) as [Hfits [rest Hs]].
      apply Nat.leb_le in Hlo. split.
      * constructor; [| exact Hfits]. repeat split; cbn; [exact Hlo | intros; lia].
      * exists rest. exact Hs.
    + destruct (Re.lo a <=? S n)%nat eqn:Hlo.
      * destruct (Re.match_here r (skipn (S n) s)) as [g0 |] eqn:Hrest;
          cbn [option_map] in H.
        -- injection H as <-. destruct (IH _ _ Hrest) as [Hfits [rest Hs]].
           apply Nat.leb_le in Hlo.
           pose proof (span_le_length (Re.cls a) (Re.hi a) s) as Hlen.
           assert (Hfirst : length (firstn (S n) s) = S n)
             by (apply firstn_length_le; lia).
           change (match s with [] => [] | x :: l => x :: firstn n l end)
             with (firstn (S n) s).
           split.
           ++ constructor; [| exact Hfits]. unfold fits. rewrite Hfirst.
              split; [exact Hlo |]. split.
              ** intros h Hh. rewrite Hh in Hb.
                 pose proof (span_le_limit (Re.cls a) h s). lia.
              ** apply (span_all _ (Re.hi a)). exact Hb.
           ++ exists rest. cbn [concat]. rewrite <- app_assoc, <- Hs.
              symmetry. apply firstn_skipn.
        -- apply IHn; [exact H | lia].
      * apply IHn; [exact H | lia].
Qed.

(** Soundness of the search: the pieces are a part of the text. *)
Lemma search_list_sound (r : list Re.atom) (s : list ascii)
    (g : list (list ascii)) :
  Re.search_list r s = Some g ->
  Forall2 fits r g /\ exists pre post, s = (pre ++ concat g ++ post)%list.
Proof.
  induction s as [| c s IH]; cbn [Re.search_list]; intros H.
  - destruct (Re.match_here r []) as [g0 |] eqn:Hm; [| discriminate H].
    injection H as <-. destruct (match_here_sound _ _ _ Hm) as [Hf [rest Hs]].
    split; [exact Hf |]. exists [], rest. exact Hs.
  - destruct (Re.match_here r (c :: s)) as [g0 |] eqn:Hm.
    + injection H as <-. destruct (match_here_sound _ _ _ Hm) as [Hf [rest Hs]].
      split; [exact Hf |]. exists [], rest. exact Hs.
    + destruct (IH H) as [Hf (pre & post & Hs)].
      split; [exact Hf |]. exists (c :: pre), post. rewrite Hs. reflexivity.
Qed.

Lemma fits_lit (c : ascii) (piece : list ascii) :
  fits (Re.lit c) piece -> piece = [c].
Proof.
  intros (Hlo & Hhi & Hall). cbn in Hlo. specialize (Hhi 1%nat eq_refl).
  destruct piece as [| x [| y piece]]; cbn in Hlo, Hhi; try lia.
  cbn in Hall. rewrite andb_true_r in Hall. apply Ascii.eqb_eq in Hall.
  subst x. reflexivity.
Qed.

Lemma string_of_list_ascii_app (l1 l2 : list ascii) :
  string_of_list_ascii (l1 ++ l2)%list
  = (string_of_list_ascii l1 ++ string_of_list_ascii l2)%string.
Proof.
  induction l1 as [| c l1 IH]; cbn; [reflexivity | rewrite IH; reflexivity].
Qed.

(** A pattern's match is the text of its group, which the search found
    among pieces that fit the atoms. *)
Lemma search_sound (p : Re.pattern) (s : string) (m : Re.Match) :
  Re.search p s = Some m ->
  exists g pre post,
    Forall2 fits (Re.atoms p) g
    /\ list_ascii_of_string s = (pre ++ concat g ++ post)%list
    /\ Re.group1 m
       = string_of_list_ascii
           (concat (firstn (Re.group_len p) (skipn (Re.group_from p) g))).
Proof.
  unfold Re.search. intros H.
  destruct (Re.search_list (Re.atoms p) (list_ascii_of_string s)) as [g |] eqn:Hs;
    [| discriminate H].
  cbn in H. injection H as <-.
  destruct (search_list_sound _ _ _ Hs) as [Hf (pre & post & Hpp)].
  exists g, pre, post. repeat split; assumption.
Qed.

Lemma text_around (s : string) (pre mid post : list ascii) :
  list_ascii_of_string s = (pre ++ mid ++ post)%list ->
  s = (string_of_list_ascii pre ++ string_of_list_ascii mid
       ++ string_of_list_ascii post)%string.
Proof.
  intros H. rewrite <- (string_of_list_ascii_of_string s), H.
  rewrite !string_of_list_ascii_app. reflexivity.
Qed.

Ltac invert_fits :=
  repeat match goal with
    | H : Forall2 fits (_ :: _) _ |- _ => inversion H; subst; clear H
    | H : Forall2 fits [] _ |- _ => inversion H; subst; clear H
    | H : fits (Re.lit _) _ |- _ => apply fits_lit in H; subst
    end.

(** X10. What [get_ip] takes for an IP address in a line of [arp -a]:
    a part of the line made of four groups of one to three decimal
    digits separated by dots. The groups are not checked to be at most
    255. *)
Theorem ipv4_match_shape (line : string) (m : Re.Match) :
  Re.search Re.ipv4 line = Some m ->
  exists a b c d,
    octet a /\ octet b /\ octet c /\ octet d
    /\ Re.group1 m
       = string_of_list_ascii
           (a ++ "."%char :: b ++ "."%char :: c ++ "."%char :: d)%list
    /\ exists pre post, line = (pre ++ Re.group1 m ++ post)%string.
Proof.
  intros H. destruct (search_sound _ _ _ H) as (g & pre & post & Hf & Hs & Hg).
  cbn [Re.ipv4 Re.atoms Re.group_from Re.group_len] in Hf, Hg.
  invert_fits.
  repeat match goal with H : fits (Re.rep _ _ _) _ |- _ =>
    let Hlo := fresh "Hlo" in let Hhi := fresh "Hhi" in
    destruct H as (Hlo & Hhi & ?);
    cbn [Re.rep Re.lo] in Hlo; specialize (Hhi 3%nat eq_refl) end.
  cbn [skipn firstn concat app] in Hg, Hs. rewrite app_nil_r in Hg, Hs.
  match type of Hg with
  | _ = string_of_list_ascii (?a ++ _ :: ?b ++ _ :: ?c ++ _ :: ?d)%list =>
      exists a, b, c, d
  end.
  unfold octet.
  repeat split; try assumption.
  exists (string_of_list_ascii pre), (string_of_list_ascii post).
  rewrite Hg. apply text_around. exact Hs.
Qed.


(** X12. What [get_ip] takes for the guest's MAC address in the domain
    description: a non-empty run of letters, digits and colons that the
    description has between [<mac address='] and the closing quote. *)
Theorem mac_xml_match_shape (xml : string) (m : Re.Match) :
  Re.search Re.mac_xml xml = Some m ->
  let address := list_ascii_of_string (Re.group1 m) in
  address <> []
  /\ forallb (fun c => Re.alpha c || Re.digit c || Ascii.eqb c ":") address = true
  /\ exists pre post,
       xml = (pre ++ "<mac address='" ++ Re.group1 m ++ "'" ++ post)%string.
Proof.
  intros H address. subst address.
  destruct (search_sound _ _ _ H) as (g & pre & post & Hf & Hs & Hg).
  cbn [Re.mac_xml Re.atoms Re.group_from Re.group_len Re.lits
       list_ascii_of_string map app] in Hf, Hg.
  invert_fits.
  match goal with H : fits (Re.plus _) ?l |- _ =>
    destruct H as (Hlo & _ & Hall); cbn [Re.plus Re.lo Re.cls] in Hlo, Hall end.
  cbn [skipn firstn concat app] in Hg, Hs. rewrite app_nil_r in Hg.
  rewrite Hg, list_ascii_of_string_of_list_ascii.
  split; [intros ->; cbn in Hlo; lia |]. split; [exact Hall |].
  exists (string_of_list_ascii pre), (string_of_list_ascii post).
  rewrite <- app_assoc in Hs. cbn [app] in Hs.
  rewrite <- (string_of_list_ascii_of_string xml), Hs.
  rewrite string_of_list_ascii_app. cbn [string_of_list_ascii].
  rewrite string_of_list_ascii_app. reflexivity.
Qed.

(** X10 on the guest's line of the simulated ARP table. *)
Lemma ipv4_match_shape_witness :
  Re.search Re.ipv4 Sim.arp_guest = Some (Re.MkMatch "192.0.2.10")
  /\ exists a b c d,
       octet a /\ octet b /\ octet c /\ octet d
       /\ "192.0.2.10"
          = string_of_list_ascii
              (a ++ "."%char :: b ++ "."%char :: c ++ "."%char :: d)%list
       /\ exists pre post, Sim.arp_guest = (pre ++ "192.0.2.10" ++ post)%string.
Proof.
  assert (H : Re.search Re.ipv4 Sim.arp_guest = Some (Re.MkMatch "192.0.2.10"))
    by (vm_compute; reflexivity).
  split; [exact H |].
  exact (ipv4_match_shape Sim.arp_guest (Re.MkMatch "192.0.2.10") H).
Defined.

(** The pattern takes groups above 255 as well. *)
Example ipv4_takes_any_three_digits :
  Re.search Re.ipv4 "? (999.0.2.256) at <incomplete> on virbr0"
  = Some (Re.MkMatch "999.0.2.256").
Proof. vm_compute. reflexivity. Qed.


(** X12 on the domain description of the simulated host. *)
Lemma mac_xml_match_shape_witness :
  Re.search Re.mac_xml (Sim.xmldesc (Sim.env0 1))
  = Some (Re.MkMatch "52:54:00:12:34:56")
  /\ exists pre post,
       Sim.xmldesc (Sim.env0 1)
       = (pre ++ "<mac address='" ++ "52:54:00:12:34:56" ++ "'" ++ post)%string.
Proof.
  assert (H : Re.search Re.mac_xml (Sim.xmldesc (Sim.env0 1))
              = Some (Re.MkMatch "52:54:00:12:34:56"))
    by (vm_compute; reflexivity).
  split; [exact H |].
  destruct (mac_xml_match_shape _ _ H) as (_ & _ & Hpart). exact Hpart.
Defined.

(** ** IP discovery: provenance, cache and trace *)

Lemma table_ip_app (v : string) (l1 l2 : list string) :
  table_ip v (l1 ++ l2)%list
  = match table_ip v l2 with
    | Some i => Some i
    | None => table_ip v l1
    end.
Proof.
  induction l1 as [| line l1 IH]; cbn [app table_ip].
  - destruct (table_ip v l2); reflexivity.
  - rewrite IH. destruct (table_ip v l2); reflexivity.
Qed.

Lemma table_ip_none (v : string) (lines : list string) :
  (forall l, In l lines -> line_ip v l = None) -> table_ip v lines = None.
Proof.
  induction lines as [| line rest IH]; intros H; cbn [table_ip]; [reflexivity |].
  rewrite IH by (intros l Hl; apply H; right; exact Hl).
  apply H. left. reflexivity.
Qed.

Lemma table_ip_In (v ip : string) (lines : list string) :
  table_ip v lines = Some ip ->
  exists line, In line lines /\ line_ip v line = Some ip.
Proof.
  induction lines as [| line rest IH]; cbn [table_ip]; intros H;
    [discriminate H |].
  destruct (table_ip v rest) as [i |] eqn:Hrest.
  - destruct (IH H) as (l & Hin & Hl). exists l. split; [right |]; assumption.
  - exists line. split; [left; reflexivity | exact H].
Qed.

Lemma samples_app (t1 t2 : list event) :
  samples (t1 ++ t2)%list = (samples t1 + samples t2)%nat.
Proof.
  induction t1 as [| e t1 IH]; cbn [app samples]; [reflexivity |].
  destruct e; cbn; rewrite IH; reflexivity.
Qed.

Lemma slept_app (t1 t2 : list event) :
  slept (t1 ++ t2)%list = slept t1 + slept t2.
Proof.
  induction t1 as [| e t1 IH]; cbn [app slept]; [reflexivity |].
  destruct e; cbn [slept]; rewrite IH; lia.
Qed.

Section IpMore.
Context {Env : Type} (host : Host Env).

(** X13. Among the lines of one [arp -a] output the last one for the
    guest's MAC wins: lines before it, matching or not, do not count. *)
Theorem scan_last_matching_line_wins (v ip line : string)
    (before after : list string) (s : State Env) :
  line_ip v line = Some ip ->
  (forall l, In l after -> line_ip v l = None) ->
  scan [v] (before ++ line :: after)%list s
  = (Py.Ok tt, mkState (env s) (trace s) (Some ip)).
Proof.
  intros Hline Hafter. rewrite scan_run, table_ip_app. cbn [table_ip].
  rewrite (table_ip_none v after Hafter), Hline. reflexivity.
Qed.

(** The IP the loop leaves in [self._ip], when none was there before,
    is the one of a sample it took. *)
Lemma poll_result_from_sample (v ip : string) (retry : nat) (s : State Env) :
  _ip s = None ->
  _ip (snd (poll host [v] retry s)) = Some ip ->
  exists k, (k < retry)%nat
            /\ table_ip v (sample host (round host k (env s))) = Some ip.
Proof.
  revert s. induction retry as [| retry IH]; intros s Hip Hres.
  - cbn in Hres. rewrite Hip in Hres. discriminate Hres.
  - rewrite poll_step in Hres. cbv zeta in Hres. cbn [_ip trace] in Hres.
    rewrite Hip in Hres.
    destruct (table_ip v (sample host (env s))) as [i |] eqn:Hsample.
    + cbn [Py.is_None snd _ip] in Hres. injection Hres as ->.
      exists O. split; [lia | exact Hsample].
    + cbn [Py.is_None] in Hres.
      apply IH in Hres; [| reflexivity].
      destruct Hres as (k & Hk & Hhit).
      exists (S k). split; [lia | exact Hhit].
Qed.

(** The events of the loop: samples and one-second sleeps, one sleep
    after each sample that left [self._ip] empty. *)
Lemma poll_trace (v : string) (retry : nat) (s : State Env) :
  let s' := snd (poll host [v] (S retry) s) in
  exists new,
    trace s' = (new ++ trace s)%list
    /\ Forall (fun e => e = EvArp \/ e = EvSleep 1) new
    /\ Z.of_nat (samples new)
       = slept new + (if Py.is_None (_ip s') then 0 else 1).
Proof.
  revert s. induction retry as [| retry IH]; intros s; cbv zeta;
    rewrite poll_step; cbv zeta; cbn [_ip trace];
    destruct (Py.is_None
                match table_ip v (sample host (env s)) with
                | Some i => Some i
                | None => _ip s
                end) eqn:Hnone.
  - exists [EvSleep 1; EvArp]. cbn [poll ret snd trace _ip Py.is_None].
    split; [reflexivity |].
    split; [repeat (first [ apply Forall_nil | apply Forall_cons; [first [left; reflexivity | right; reflexivity] |] ]) | reflexivity].
  - exists [EvArp]. cbn [snd trace _ip]. rewrite Hnone.
    split; [reflexivity |].
    split; [repeat (first [ apply Forall_nil | apply Forall_cons; [first [left; reflexivity | right; reflexivity] |] ]) | reflexivity].
  - destruct (IH (mkState (next_round host (env s))
                    (EvSleep 1 :: EvArp :: trace s) None))
      as (new & Htrace & Hall & Hcount).
    cbv zeta in Htrace, Hcount. cbn [trace] in Htrace.
    exists (new ++ [EvSleep 1; EvArp])%list.
    rewrite Htrace, <- app_assoc. split; [reflexivity |].
    split.
    + apply Forall_app. split; [exact Hall | repeat (first [ apply Forall_nil | apply Forall_cons; [first [left; reflexivity | right; reflexivity] |] ])].
    + rewrite samples_app, slept_app. cbn [samples slept].
      rewrite Nat2Z.inj_add. cbn [Z.of_nat]. lia.
  - exists [EvArp]. cbn [snd trace _ip]. rewrite Hnone.
    split; [reflexivity |].
    split; [repeat (first [ apply Forall_nil | apply Forall_cons; [first [left; reflexivity | right; reflexivity] |] ]) | reflexivity].
Qed.

Lemma line_ip_inv (v ip line : string) :
  line_ip v line = Some ip ->
  exists mi mm,
    Re.search Re.ipv4 line = Some mi /\ Re.search Re.mac line = Some mm
    /\ Re.group1 mm = v /\ Re.group1 mi = ip.
Proof.
  unfold line_ip. intros H.
  destruct (Re.search Re.ipv4 line) as [mi |]; [| discriminate H].
  destruct (Re.search Re.mac line) as [mm |]; [| discriminate H].
  destruct (String.eqb_spec (Re.group1 mm) v) as [Hv |]; [| discriminate H].
  injection H as <-. exists mi, mm. repeat split. exact Hv.
Qed.

(** X14. What [get_ip] returns is what it leaves in [self._ip], and a
    resolved IP is cached: the next [get_ip()] returns it without
    asking the hypervisor or sampling the ARP table. *)
Theorem get_ip_result_is_cached (self : VMMLibvirt) (force_refresh : bool)
    (s : State Env) (m : Re.Match) :
  connected self -> defined host self s ->
  force_refresh = true \/ _ip s = None ->
  Re.search Re.mac_xml (dom_XMLDesc host (env s) (vm_vmid (vminst self))) = Some m ->
  let run := get_ip host self force_refresh s in
  fst run = Py.Ok (_ip (snd run))
  /\ (forall ip,
        fst run = Py.Ok (Some ip) ->
        get_ip host self false (snd run) = (Py.Ok (Some ip), snd run)).
Proof.
  intros Hc Hd Hfresh Hmac run. subst run.
  rewrite (get_ip_polls host self force_refresh s m Hc Hd Hfresh Hmac).
  cbn [fst snd]. split; [reflexivity |].
  intros ip Hres. injection Hres as Hres.
  apply get_ip_cached. exact Hres.
Qed.

(** X15. Starting with nothing cached, an IP that [get_ip] returns
    comes from the ARP table: one of the at most 120 samples has a line
    in which the MAC pattern finds the guest's MAC, as the domain
    description gives it, and the IP pattern finds that IP. *)
Theorem get_ip_result_comes_from_a_sample (self : VMMLibvirt)
    (force_refresh : bool) (s : State Env) (m : Re.Match) (ip : string) :
  connected self -> defined host self s ->
  _ip s = None ->
  Re.search Re.mac_xml (dom_XMLDesc host (env s) (vm_vmid (vminst self))) = Some m ->
  fst (get_ip host self force_refresh s) = Py.Ok (Some ip) ->
  exists k line mi mm,
    (k < 120)%nat
    /\ In line (sample host (round host k (env s)))
    /\ Re.search Re.ipv4 line = Some mi /\ Re.group1 mi = ip
    /\ Re.search Re.mac line = Some mm /\ Re.group1 mm = Re.group1 m.
Proof.
  intros Hc Hd Hip Hmac Hres.
  rewrite (get_ip_polls host self force_refresh s m Hc Hd (or_intror Hip) Hmac)
    in Hres.
  set (polled := poll host [Re.group1 m] ARP_INTERVAL s) in Hres.
  cbn [fst] in Hres. injection Hres as Hres. subst polled.
  destruct (poll_result_from_sample _ _ _ _ Hip Hres) as (k & Hk & Htable).
  destruct (table_ip_In _ _ _ Htable) as (line & Hin & Hline).
  destruct (line_ip_inv _ _ _ Hline) as (mi & mm & Hi & Hm & Hv & Hi').
  exists k, line, mi, mm. unfold ARP_INTERVAL in Hk. repeat split; assumption.
Qed.

(** X16. The side effects of an uncached or forced [get_ip] on a
    registered domain with a MAC are runs of [arp -a] and one-second
    sleeps only, and each sample is followed by a sleep except the one
    that ends the loop with an IP in [self._ip]: the seconds slept are
    the number of samples, less one when an IP is returned. *)
Theorem get_ip_samples_and_sleeps (self : VMMLibvirt) (force_refresh : bool)
    (s : State Env) (m : Re.Match) :
  connected self -> defined host self s ->
  force_refresh = true \/ _ip s = None ->
  Re.search Re.mac_xml (dom_XMLDesc host (env s) (vm_vmid (vminst self))) = Some m ->
  let run := get_ip host self force_refresh s in
  exists new,
    trace (snd run) = (new ++ trace s)%list
    /\ Forall (fun e => e = EvArp \/ e = EvSleep 1) new
    /\ Z.of_nat (samples new)
       = slept new + (match fst run with Py.Ok (Some _) => 1 | _ => 0 end).
Proof.
  intros Hc Hd Hfresh Hmac run. subst run.
  rewrite (get_ip_polls host self force_refresh s m Hc Hd Hfresh Hmac).
  cbn [fst snd]. change ARP_INTERVAL with (S 119).
  destruct (poll_trace (Re.group1 m) 119 s) as (new & Htrace & Hall & Hcount).
  cbv zeta in Htrace, Hcount.
  exists new. split; [exact Htrace |]. split; [exact Hall |].
  rewrite Hcount.
  destruct (_ip (snd (poll host [Re.group1 m] 120 s))); reflexivity.
Qed.

(** X17. [destroy()] does not touch [self._ip]: after it, [get_ip()]
    without a forced refresh still returns the IP cached before, and
    does not notice that the domain is gone. *)
Theorem destroy_keeps_cached_ip (self : VMMLibvirt) (s : State Env) (ip : string) :
  connected self ->
  _ip s = Some ip ->
  let s' := snd (destroy host self s) in
  _ip s' = Some ip
  /\ get_ip host self false s' = (Py.Ok (Some ip), s').
Proof.
  intros Hc Hip s'.
  assert (Hkept : _ip s' = Some ip).
  { subst s'. rewrite (destroy_run host self s Hc), destroy_xml_file_run.
    rewrite (destroy_domain_run host self s Hc). cbn [snd].
    repeat match goal with
      | |- context [if ?b then _ else _] => destruct b
      | |- context [match ?o with Some _ => _ | None => _ end] => destruct o
      end; cbn [_ip]; exact Hip. }
  split; [exact Hkept | apply get_ip_cached; exact Hkept].
Qed.

End IpMore.

(** X13 on two lines for the guest's MAC: the later one counts. *)
Lemma scan_last_matching_line_wins_witness :
  let stale := "? (192.0.2.77) at 52:54:00:12:34:56 [ether] on virbr0" in
  line_ip "52:54:00:12:34:56" Sim.arp_guest = Some "192.0.2.10"
  /\ scan ["52:54:00:12:34:56"] [stale; Sim.arp_guest; Sim.arp_other]
       (Sim.state0 (Sim.env0 1) None)
     = (Py.Ok tt, mkState (Sim.env0 1) [] (Some "192.0.2.10")).
Proof.
  intros stale.
  assert (H : line_ip "52:54:00:12:34:56" Sim.arp_guest = Some "192.0.2.10")
    by (vm_compute; reflexivity).
  split; [exact H |].
  apply (scan_last_matching_line_wins "52:54:00:12:34:56" "192.0.2.10"
           Sim.arp_guest [stale] [Sim.arp_other] (Sim.state0 (Sim.env0 1) None) H).
  intros l [<- | []]. vm_compute. reflexivity.
Defined.

(** X14 on the simulated host: the second call costs nothing. *)
Lemma get_ip_result_is_cached_witness :
  let s := Sim.state0 (Sim.with_arp [[Sim.arp_guest]] (Sim.env0 1)) None in
  let s' := snd (get_ip Sim.host Sim.self false s) in
  connected Sim.self
  /\ defined Sim.host Sim.self s
  /\ get_ip Sim.host Sim.self false s' = (Py.Ok (Some "192.0.2.10"), s').
Proof.
  intros s s'.
  assert (Hc : connected Sim.self) by discriminate.
  assert (Hd : defined Sim.host Sim.self s) by reflexivity.
  split; [exact Hc |]. split; [exact Hd |].
  destruct (get_ip_result_is_cached Sim.host Sim.self false s
              (Re.MkMatch "52:54:00:12:34:56") Hc Hd (or_intror eq_refl))
    as [_ Hnext]; [vm_compute; reflexivity |].
  apply Hnext. vm_compute. reflexivity.
Defined.

(** X15 on the simulated host: the IP is in the second sample. *)
Lemma get_ip_result_comes_from_a_sample_witness :
  let s := Sim.state0 (Sim.with_arp [[Sim.arp_other]; [Sim.arp_guest]] (Sim.env0 1))
             None in
  connected Sim.self
  /\ defined Sim.host Sim.self s
  /\ fst (get_ip Sim.host Sim.self false s) = Py.Ok (Some "192.0.2.10")
  /\ exists k line mi mm,
       (k < 120)%nat
       /\ In line (sample Sim.host (round Sim.host k (env s)))
       /\ Re.search Re.ipv4 line = Some mi /\ Re.group1 mi = "192.0.2.10"
       /\ Re.search Re.mac line = Some mm
       /\ Re.group1 mm = "52:54:00:12:34:56".
Proof.
  intros s.
  assert (Hc : connected Sim.self) by discriminate.
  assert (Hd : defined Sim.host Sim.self s) by reflexivity.
  assert (Hres : fst (get_ip Sim.host Sim.self false s) = Py.Ok (Some "192.0.2.10"))
    by (vm_compute; reflexivity).
  split; [exact Hc |]. split; [exact Hd |]. split; [exact Hres |].
  apply (get_ip_result_comes_from_a_sample Sim.host Sim.self false s
           (Re.MkMatch "52:54:00:12:34:56") "192.0.2.10" Hc Hd eq_refl);
    [vm_compute; reflexivity | exact Hres].
Defined.

(** X16 on the simulated host: two samples, one second. *)
Lemma get_ip_samples_and_sleeps_witness :
  let s := Sim.state0 (Sim.with_arp [[Sim.arp_other]; [Sim.arp_guest]] (Sim.env0 1))
             None in
  connected Sim.self
  /\ defined Sim.host Sim.self s
  /\ exists new,
       trace (snd (get_ip Sim.host Sim.self false s)) = (new ++ trace s)%list
       /\ Forall (fun e => e = EvArp \/ e = EvSleep 1) new
       /\ Z.of_nat (samples new)
          = slept new
            + (match fst (get_ip Sim.host Sim.self false s) with
               | Py.Ok (Some _) => 1
               | _ => 0
               end).
Proof.
  intros s.
  assert (Hc : connected Sim.self) by discriminate.
  assert (Hd : defined Sim.host Sim.self s) by reflexivity.
  split; [exact Hc |]. split; [exact Hd |].
  apply (get_ip_samples_and_sleeps Sim.host Sim.self false s
           (Re.MkMatch "52:54:00:12:34:56") Hc Hd (or_intror eq_refl)).
  vm_compute. reflexivity.
Defined.

(** X17 on the simulated host: the IP of a destroyed guest. *)
Lemma destroy_keeps_cached_ip_witness :
  let s := Sim.state0 (Sim.env0 1) (Some "192.0.2.10") in
  let s' := snd (destroy Sim.host Sim.self s) in
  connected Sim.self
  /\ Sim.domain (env s') = None
  /\ get_ip Sim.host Sim.self false s' = (Py.Ok (Some "192.0.2.10"), s').
Proof.
  intros s s'.
  assert (Hc : connected Sim.self) by discriminate.
  split; [exact Hc |]. split; [reflexivity |].
  destruct (destroy_keeps_cached_ip Sim.host Sim.self s "192.0.2.10" Hc eq_refl)
    as [_ Hget].
  exact Hget.
Defined.

(** ** Guest-agent relay: the steps of the file operations *)

Section AgentMore.
Context {Env : Type} (host : Host Env) (lib : PyLib).

(** One agent round trip, on an explicit state. *)
Lemma agent_step (self : VMMLibvirt) (cmd : string) (e : Env) (t : list event)
    (ip : option string) (response : option string) (e' : Env) :
  connected self ->
  lookupByUUIDString host e (vm_vmid (vminst self)) = true ->
  qemuAgentCommand host (vm_vmid (vminst self)) cmd 30 0 e = (response, e') ->
  _qemu_agent_command host self cmd (mkState e t ip)
  = (match response with
     | Some r => Py.Ok r
     | None => Py.Raise Py.libvirtError
     end,
     mkState e' (EvAgent cmd :: t) ip).
Proof.
  intros Hc Hd Hcmd.
  apply (_qemu_agent_command_run host self cmd (mkState e t ip) response e' Hc Hd Hcmd).
Qed.

Ltac agent_round Hc Hd Hcmd :=
  unfold bind at 1;
  rewrite (agent_step _ _ _ _ _ _ _ Hc Hd Hcmd).

Ltac passed H :=
  unfold bind at 1; rewrite H; unfold assert at 1, ret at 1.

(** X18. [qemu_agent_file_write] when the agent answers all three
    steps with a response that contains [return], the first one an
    object whose [return] member is the handle: the commands sent are
    open in mode [w+], write of the given base64 text to the handle,
    close of the handle, in this order, and the result is [True]. *)
Theorem file_write_round_trips (self : VMMLibvirt) (path content : string)
    (s : State Env) (opened written closed : string)
    (members : list (string * json)) (fd : json) (e1 e2 e3 : Env) :
  let dom := vm_vmid (vminst self) in
  let open_cmd := cmd_file_open path "w+" in
  let write_cmd := cmd_file_write (format_s lib fd) content in
  let close_cmd := cmd_file_close_w (format_s lib fd) in
  connected self ->
  lookupByUUIDString host (env s) dom = true ->
  qemuAgentCommand host dom open_cmd 30 0 (env s) = (Some opened, e1) ->
  Py.str_in "return" opened = true ->
  json_loads lib opened = Some (JObj members) ->
  dict_get members "return" = Some fd ->
  lookupByUUIDString host e1 dom = true ->
  qemuAgentCommand host dom write_cmd 30 0 e1 = (Some written, e2) ->
  Py.str_in "return" written = true ->
  lookupByUUIDString host e2 dom = true ->
  qemuAgentCommand host dom close_cmd 30 0 e2 = (Some closed, e3) ->
  Py.str_in "return" closed = true ->
  qemu_agent_file_write host lib self path content s
  = (Py.Ok true,
     mkState e3
       (EvAgent close_cmd :: EvAgent write_cmd :: EvAgent open_cmd :: trace s)
       (_ip s)).
Proof.
  intros dom open_cmd write_cmd close_cmd Hc Hd0 Hopen Hret Hjson Hfd Hd1 Hwrite
    Hret2 Hd2 Hclose Hret3.
  subst dom open_cmd write_cmd close_cmd.
  destruct s as [e t ip]. cbn [env trace _ip] in *.
  unfold qemu_agent_file_write.
  agent_round Hc Hd0 Hopen. passed Hret.
  unfold bind at 1. unfold loads at 1. rewrite Hjson. unfold ret at 1.
  unfold bind at 1. unfold getitem at 1. rewrite Hfd. unfold ret at 1.
  agent_round Hc Hd1 Hwrite. passed Hret2.
  agent_round Hc Hd2 Hclose. passed Hret3.
  reflexivity.
Qed.

(** X19. [qemu_agent_file_write] when the write response does not
    contain [return]: the call ends in [AssertionError] at the write
    step, and the close command is never sent, so the handle opened in
    the guest stays open. *)
Theorem file_write_failed_write_skips_close (self : VMMLibvirt)
    (path content : string) (s : State Env) (opened written : string)
    (members : list (string * json)) (fd : json) (e1 e2 : Env) :
  let dom := vm_vmid (vminst self) in
  let open_cmd := cmd_file_open path "w+" in
  let write_cmd := cmd_file_write (format_s lib fd) content in
  connected self ->
  lookupByUUIDString host (env s) dom = true ->
  qemuAgentCommand host dom open_cmd 30 0 (env s) = (Some opened, e1) ->
  Py.str_in "return" opened = true ->
  json_loads lib opened = Some (JObj members) ->
  dict_get members "return" = Some fd ->
  lookupByUUIDString host e1 dom = true ->
  qemuAgentCommand host dom write_cmd 30 0 e1 = (Some written, e2) ->
  Py.str_in "return" written = false ->
  qemu_agent_file_write host lib self path content s
  = (Py.Raise Py.AssertionError,
     mkState e2 (EvAgent write_cmd :: EvAgent open_cmd :: trace s) (_ip s)).
Proof.
  intros dom open_cmd write_cmd Hc Hd0 Hopen Hret Hjson Hfd Hd1 Hwrite Hret2.
  subst dom open_cmd write_cmd.
  destruct s as [e t ip]. cbn [env trace _ip] in *.
  unfold qemu_agent_file_write.
  agent_round Hc Hd0 Hopen. passed Hret.
  unfold bind at 1. unfold loads at 1. rewrite Hjson. unfold ret at 1.
  unfold bind at 1. unfold getitem at 1. rewrite Hfd. unfold ret at 1.
  agent_round Hc Hd1 Hwrite.
  unfold bind at 1. rewrite Hret2. reflexivity.
Qed.

(** X20. How the open step of [qemu_agent_file_read] fails once the
    agent has answered. The assertion is a test on the text of the
    response: without the substring [return] it fails; with it, a
    response that is not JSON ends in [JSONDecodeError], one that is
    not an object in [TypeError], and an object without a [return]
    member in [KeyError]. In each case one command has been sent. *)
Theorem file_read_open_step_failures (self : VMMLibvirt) (path : string)
    (s : State Env) (opened : string) (e1 : Env) :
  let dom := vm_vmid (vminst self) in
  let open_cmd := cmd_file_open path "r" in
  let s1 := mkState e1 (EvAgent open_cmd :: trace s) (_ip s) in
  let run := qemu_agent_file_read host lib self path s in
  connected self ->
  lookupByUUIDString host (env s) dom = true ->
  qemuAgentCommand host dom open_cmd 30 0 (env s) = (Some opened, e1) ->
  (Py.str_in "return" opened = false -> run = (Py.Raise Py.AssertionError, s1))
  /\ (Py.str_in "return" opened = true ->
      (json_loads lib opened = None -> run = (Py.Raise Py.JSONDecodeError, s1))
      /\ (forall j, json_loads lib opened = Some j ->
                    (forall members, j <> JObj members) ->
                    run = (Py.Raise Py.TypeError, s1))
      /\ (forall members, json_loads lib opened = Some (JObj members) ->
                          dict_get members "return" = None ->
                          run = (Py.Raise Py.KeyError, s1))).
Proof.
  intros dom open_cmd s1 run Hc Hd0 Hopen.
  subst dom open_cmd s1 run.
  destruct s as [e t ip]. cbn [env trace _ip] in *.
  unfold qemu_agent_file_read.
  split; [intros Hret | intros Hret; split; [| split]].
  - agent_round Hc Hd0 Hopen. unfold bind at 1. rewrite Hret. reflexivity.
  - intros Hjson. agent_round Hc Hd0 Hopen. passed Hret.
    unfold bind at 1. unfold loads at 1. rewrite Hjson. reflexivity.
  - intros j Hjson Hobj. agent_round Hc Hd0 Hopen. passed Hret.
    unfold bind at 1. unfold loads at 1. rewrite Hjson. unfold ret at 1.
    unfold bind at 1.
    destruct j; try reflexivity. exfalso. apply (Hobj members). reflexivity.
  - intros members Hjson Hfd. agent_round Hc Hd0 Hopen. passed Hret.
    unfold bind at 1. unfold loads at 1. rewrite Hjson. unfold ret at 1.
    unfold bind at 1. unfold getitem at 1. rewrite Hfd. reflexivity.
Qed.

(** X21. [qemu_agent_file_read] when the agent answers all three steps
    well: the result is the [buf-b64] member of the [return] member of
    the read response, after open in mode [r], read and close of the
    handle, in this order. *)
Theorem file_read_returns_buf_b64 (self : VMMLibvirt) (path : string)
    (s : State Env) (opened content closed : string)
    (members answer data : list (string * json)) (fd buf : json)
    (e1 e2 e3 : Env) :
  let dom := vm_vmid (vminst self) in
  let open_cmd := cmd_file_open path "r" in
  let read_cmd := cmd_file_read (format_s lib fd) in
  let close_cmd := cmd_file_close_r (format_s lib fd) in
  connected self ->
  lookupByUUIDString host (env s) dom = true ->
  qemuAgentCommand host dom open_cmd 30 0 (env s) = (Some opened, e1) ->
  Py.str_in "return" opened = true ->
  json_loads lib opened = Some (JObj members) ->
  dict_get members "return" = Some fd ->
  lookupByUUIDString host e1 dom = true ->
  qemuAgentCommand host dom read_cmd 30 0 e1 = (Some content, e2) ->
  json_loads lib content = Some (JObj answer) ->
  dict_get answer "return" = Some (JObj data) ->
  dict_get data "buf-b64" = Some buf ->
  lookupByUUIDString host e2 dom = true ->
  qemuAgentCommand host dom close_cmd 30 0 e2 = (Some closed, e3) ->
  Py.str_in "return" closed = true ->
  qemu_agent_file_read host lib self path s
  = (Py.Ok buf,
     mkState e3
       (EvAgent close_cmd :: EvAgent read_cmd :: EvAgent open_cmd :: trace s)
       (_ip s)).
Proof.
  intros dom open_cmd read_cmd close_cmd Hc Hd0 Hopen Hret Hjson Hfd Hd1 Hread
    Hjson2 Hanswer Hbuf Hd2 Hclose Hret3.
  subst dom open_cmd read_cmd close_cmd.
  destruct s as [e t ip]. cbn [env trace _ip] in *.
  unfold qemu_agent_file_read.
  agent_round Hc Hd0 Hopen. passed Hret.
  unfold bind at 1. unfold loads at 1. rewrite Hjson. unfold ret at 1.
  unfold bind at 1. unfold getitem at 1. rewrite Hfd. unfold ret at 1.
  agent_round Hc Hd1 Hread.
  unfold bind at 1. unfold assert at 1, ret at 1.
  agent_round Hc Hd2 Hclose. passed Hret3.
  unfold bind at 1. unfold loads at 1. rewrite Hjson2. unfold ret at 1.
  unfold bind at 1. unfold getitem at 1. rewrite Hanswer. unfold ret at 1.
  unfold getitem. rewrite Hbuf. reflexivity.
Qed.

(** X22. [qemu_agent_file_read] when only the close response lacks
    [return]: the call ends in [AssertionError] after the three
    commands, and the content that the read step received is not
    returned. *)
Theorem file_read_failed_close_loses_content (self : VMMLibvirt) (path : string)
    (s : State Env) (opened content closed : string)
    (members : list (string * json)) (fd : json) (e1 e2 e3 : Env) :
  let dom := vm_vmid (vminst self) in
  let open_cmd := cmd_file_open path "r" in
  let read_cmd := cmd_file_read (format_s lib fd) in
  let close_cmd := cmd_file_close_r (format_s lib fd) in
  connected self ->
  lookupByUUIDString host (env s) dom = true ->
  qemuAgentCommand host dom open_cmd 30 0 (env s) = (Some opened, e1) ->
  Py.str_in "return" opened = true ->
  json_loads lib opened = Some (JObj members) ->
  dict_get members "return" = Some fd ->
  lookupByUUIDString host e1 dom = true ->
  qemuAgentCommand host dom read_cmd 30 0 e1 = (Some content, e2) ->
  lookupByUUIDString host e2 dom = true ->
  qemuAgentCommand host dom close_cmd 30 0 e2 = (Some closed, e3) ->
  Py.str_in "return" closed = false ->
  qemu_agent_file_read host lib self path s
  = (Py.Raise Py.AssertionError,
     mkState e3
       (EvAgent close_cmd :: EvAgent read_cmd :: EvAgent open_cmd :: trace s)
       (_ip s)).
Proof.
  intros dom open_cmd read_cmd close_cmd Hc Hd0 Hopen Hret Hjson Hfd Hd1 Hread
    Hd2 Hclose Hret3.
  subst dom open_cmd read_cmd close_cmd.
  destruct s as [e t ip]. cbn [env trace _ip] in *.
  unfold qemu_agent_file_read.
  agent_round Hc Hd0 Hopen. passed Hret.
  unfold bind at 1. unfold loads at 1. rewrite Hjson. unfold ret at 1.
  unfold bind at 1. unfold getitem at 1. rewrite Hfd. unfold ret at 1.
  agent_round Hc Hd1 Hread.
  unfold bind at 1. unfold assert at 1, ret at 1.
  agent_round Hc Hd2 Hclose.
  unfold bind at 1. rewrite Hret3. reflexivity.
Qed.

End AgentMore.

(** X18 on the simulated host: three well-formed answers. *)
Lemma file_write_round_trips_witness :
  let s := Sim.state0
             (Sim.with_agent [Some Sim.open_response; Some Sim.close_response;
                              Some Sim.close_response] (Sim.env0 1)) None in
  connected Sim.self
  /\ fst (qemu_agent_file_write Sim.host Sim.lib Sim.self "/etc/hostname"
            "aGVsbG8=" s) = Py.Ok true
  /\ trace (snd (qemu_agent_file_write Sim.host Sim.lib Sim.self "/etc/hostname"
                   "aGVsbG8=" s))
     = [EvAgent (cmd_file_close_w "1000");
        EvAgent (cmd_file_write "1000" "aGVsbG8=");
        EvAgent (cmd_file_open "/etc/hostname" "w+")].
Proof.
  intros s.
  assert (Hc : connected Sim.self) by discriminate.
  split; [exact Hc |].
  rewrite (file_write_round_trips Sim.host Sim.lib Sim.self "/etc/hostname"
             "aGVsbG8=" s Sim.open_response Sim.close_response Sim.close_response
             [("return", JInt 1000)] (JInt 1000)
             (Sim.with_agent [Some Sim.close_response; Some Sim.close_response]
                (Sim.env0 1))
             (Sim.with_agent [Some Sim.close_response] (Sim.env0 1))
             (Sim.with_agent [] (Sim.env0 1))
             Hc);
    try (vm_compute; reflexivity).
  split; vm_compute; reflexivity.
Defined.

(** X19 on the simulated host: the write is answered with an error. *)
Lemma file_write_failed_write_skips_close_witness :
  connected Sim.self
  /\ Py.str_in "return" Sim.read_error = false
  /\ fst (qemu_agent_file_write Sim.host Sim.lib Sim.self "/etc/hostname"
            "aGVsbG8=" Sim.failing_read_state)
     = Py.Raise Py.AssertionError
  /\ Sim.agent_script
       (env (snd (qemu_agent_file_write Sim.host Sim.lib Sim.self "/etc/hostname"
                    "aGVsbG8=" Sim.failing_read_state)))
     = [Some Sim.close_response].
Proof.
  assert (Hc : connected Sim.self) by discriminate.
  split; [exact Hc |]. split; [vm_compute; reflexivity |].
  rewrite (file_write_failed_write_skips_close Sim.host Sim.lib Sim.self
             "/etc/hostname" "aGVsbG8=" Sim.failing_read_state
             Sim.open_response Sim.read_error
             [("return", JInt 1000)] (JInt 1000)
             (Sim.with_agent [Some Sim.read_error; Some Sim.close_response]
                (Sim.env0 1))
             (Sim.with_agent [Some Sim.close_response] (Sim.env0 1))
             Hc);
    try (vm_compute; reflexivity).
  split; reflexivity.
Defined.

(** X20 on the simulated host: the open is answered with an error. *)
Lemma file_read_open_step_failures_witness :
  let s := Sim.state0 (Sim.with_agent [Some Sim.read_error] (Sim.env0 1)) None in
  connected Sim.self
  /\ qemu_agent_file_read Sim.host Sim.lib Sim.self "/etc/hostname" s
     = (Py.Raise Py.AssertionError,
        mkState (Sim.with_agent [] (Sim.env0 1))
          [EvAgent (cmd_file_open "/etc/hostname" "r")] None).
Proof.
  intros s.
  assert (Hc : connected Sim.self) by discriminate.
  split; [exact Hc |].
  destruct (file_read_open_step_failures Sim.host Sim.lib Sim.self
              "/etc/hostname" s Sim.read_error (Sim.with_agent [] (Sim.env0 1))
              Hc eq_refl eq_refl)
    as [Hassert _].
  apply Hassert. vm_compute. reflexivity.
Defined.

(** X21 on the simulated host: the content read is [aGVsbG8=]. *)
Lemma file_read_returns_buf_b64_witness :
  let s := Sim.state0
             (Sim.with_agent [Some Sim.open_response; Some Sim.read_response;
                              Some Sim.close_response] (Sim.env0 1)) None in
  connected Sim.self
  /\ fst (qemu_agent_file_read Sim.host Sim.lib Sim.self "/etc/hostname" s)
     = Py.Ok (JStr "aGVsbG8=").
Proof.
  intros s.
  assert (Hc : connected Sim.self) by discriminate.
  split; [exact Hc |].
  rewrite (file_read_returns_buf_b64 Sim.host Sim.lib Sim.self "/etc/hostname" s
             Sim.open_response Sim.read_response Sim.close_response
             [("return", JInt 1000)]
             [("return",
               JObj [("count", JInt 5); ("buf-b64", JStr "aGVsbG8=");
                     ("eof", JBool true)])]
             [("count", JInt 5); ("buf-b64", JStr "aGVsbG8="); ("eof", JBool true)]
             (JInt 1000) (JStr "aGVsbG8=")
             (Sim.with_agent [Some Sim.read_response; Some Sim.close_response]
                (Sim.env0 1))
             (Sim.with_agent [Some Sim.close_response] (Sim.env0 1))
             (Sim.with_agent [] (Sim.env0 1))
             Hc);
    vm_compute; reflexivity.
Defined.

(** X22 on the simulated host: the close is answered with an error. *)
Lemma file_read_failed_close_loses_content_witness :
  let s := Sim.state0
             (Sim.with_agent [Some Sim.open_response; Some Sim.read_response;
                              Some Sim.read_error] (Sim.env0 1)) None in
  connected Sim.self
  /\ fst (qemu_agent_file_read Sim.host Sim.lib Sim.self "/etc/hostname" s)
     = Py.Raise Py.AssertionError.
Proof.
  intros s.
  assert (Hc : connected Sim.self) by discriminate.
  split; [exact Hc |].
  rewrite (file_read_failed_close_loses_content Sim.host Sim.lib Sim.self
             "/etc/hostname" s
             Sim.open_response Sim.read_response Sim.read_error
             [("return", JInt 1000)] (JInt 1000)
             (Sim.with_agent [Some Sim.read_response; Some Sim.read_error]
                (Sim.env0 1))
             (Sim.with_agent [Some Sim.read_error] (Sim.env0 1))
             (Sim.with_agent [] (Sim.env0 1))
             Hc);
    vm_compute; reflexivity.
Defined.

(** ** Predicates, [state()] and the agent's power commands *)

Section Consistency.
Context {Env : Type} (host : Host Env).

(** X23. On a registered domain the three readings of the power state
    agree and change nothing: [is_running()] holds exactly when
    [state()] is [VM_STATE_RUNNING], [is_shutoff()] exactly when it is
    [VM_STATE_SHUTDOWN], and the two predicates never hold together. *)
Theorem predicates_agree_with_state (self : VMMLibvirt) (s : State Env) :
  connected self -> defined host self s ->
  exists running shutoff st,
    is_running host self s = (Py.Ok running, s)
    /\ is_shutoff host self s = (Py.Ok shutoff, s)
    /\ state host self s = (Py.Ok st, s)
    /\ (running = true <-> st = Some VM_STATE_RUNNING)
    /\ (shutoff = true <-> st = Some VM_STATE_SHUTDOWN)
    /\ running && shutoff = false.
Proof.
  intros Hc Hd.
  rewrite (is_running_found host self s Hc Hd), (is_shutoff_found host self s Hc Hd).
  unfold state, bind. rewrite (_get_domain_found host self s Hc Hd).
  unfold dom_get_state. mrun.
  unfold VIR_DOMAIN_RUNNING, VIR_DOMAIN_PAUSED, VIR_DOMAIN_SHUTDOWN,
    VIR_DOMAIN_SHUTOFF.
  set (c := dom_state host (env s) (vm_vmid (vminst self))).
  destruct (Z.eqb_spec c 1) as [-> | H1].
  - do 3 eexists. repeat split; try reflexivity; discriminate.
  - destruct (Z.eqb_spec c 3) as [-> | H3];
      [| destruct (Z.eqb_spec c 4) as [-> | H4];
         [| destruct (Z.eqb_spec c 5) as [-> | H5]]];
      do 3 eexists; repeat split; try reflexivity; try discriminate.
Qed.

(** X24. [qemu_agent_shutdown] and [qemu_agent_reboot] relay one
    command each, both with the verb [guest-shutdown], and hand back
    whatever the agent answers, unchecked: there is no assertion on
    [return] here, and an agent error is a [libvirtError]. *)
Theorem agent_power_commands_are_relayed (self : VMMLibvirt) (s : State Env)
    (down up : option string) (e1 e2 : Env) :
  let dom := vm_vmid (vminst self) in
  let relayed (r : option string) : Py.result string :=
    match r with
    | Some text => Py.Ok text
    | None => Py.Raise Py.libvirtError
    end in
  connected self -> defined host self s ->
  qemuAgentCommand host dom cmd_shutdown 30 0 (env s) = (down, e1) ->
  qemuAgentCommand host dom cmd_reboot 30 0 (env s) = (up, e2) ->
  qemu_agent_shutdown host self s
  = (relayed down, mkState e1 (EvAgent cmd_shutdown :: trace s) (_ip s))
  /\ qemu_agent_reboot host self s
     = (relayed up, mkState e2 (EvAgent cmd_reboot :: trace s) (_ip s))
  /\ Py.str_in "guest-shutdown" cmd_shutdown = true
  /\ Py.str_in "guest-shutdown" cmd_reboot = true
  /\ cmd_shutdown <> cmd_reboot.
Proof.
  intros dom relayed Hc Hd Hdown Hup. subst dom relayed.
  unfold qemu_agent_shutdown, qemu_agent_reboot.
  rewrite (_qemu_agent_command_run host self _ s down e1 Hc Hd Hdown).
  rewrite (_qemu_agent_command_run host self _ s up e2 Hc Hd Hup).
  repeat split; try (vm_compute; reflexivity).
  vm_compute. discriminate.
Qed.

End Consistency.

(** X23 on the simulated host: a paused domain is neither running nor
    shut off. *)
Lemma predicates_agree_with_state_witness :
  let s := Sim.state0 (Sim.env0 3) None in
  connected Sim.self
  /\ defined Sim.host Sim.self s
  /\ exists running shutoff st,
       is_running Sim.host Sim.self s = (Py.Ok running, s)
       /\ is_shutoff Sim.host Sim.self s = (Py.Ok shutoff, s)
       /\ state Sim.host Sim.self s = (Py.Ok st, s)
       /\ (running = true <-> st = Some VM_STATE_RUNNING)
       /\ (shutoff = true <-> st = Some VM_STATE_SHUTDOWN)
       /\ running && shutoff = false.
Proof.
  intros s.
  assert (Hc : connected Sim.self) by discriminate.
  assert (Hd : defined Sim.host Sim.self s) by reflexivity.
  split; [exact Hc |]. split; [exact Hd |].
  exact (predicates_agree_with_state Sim.host Sim.self s Hc Hd).
Defined.

(** X24 on the simulated host: an answer without [return] is handed
    back by [qemu_agent_shutdown]. *)
Lemma agent_power_commands_are_relayed_witness :
  let s := Sim.state0 (Sim.with_agent [Some Sim.read_error] (Sim.env0 1)) None in
  connected Sim.self
  /\ defined Sim.host Sim.self s
  /\ qemu_agent_shutdown Sim.host Sim.self s
     = (Py.Ok Sim.read_error,
        mkState (Sim.with_agent [] (Sim.env0 1)) [EvAgent cmd_shutdown] None).
Proof.
  intros s.
  assert (Hc : connected Sim.self) by discriminate.
  assert (Hd : defined Sim.host Sim.self s) by reflexivity.
  split; [exact Hc |]. split; [exact Hd |].
  destruct (agent_power_commands_are_relayed Sim.host Sim.self s
              (Some Sim.read_error) (Some Sim.read_error)
              (Sim.with_agent [] (Sim.env0 1)) (Sim.with_agent [] (Sim.env0 1))
              Hc Hd eq_refl eq_refl)
    as [Hdown _].
  exact Hdown.
Defined.
